(** * Ratio engine of the financial dashboard: [app/utils/financial.ts]

    The engine is a library of eleven [calculate*] functions (two numbers
    in, a ratio out, or an exception) and eleven [get*Judgment] functions
    (a ratio in, a judgment record out).  Every function is translated
    below statement by statement.

    The TypeScript type [number] is an IEEE-754 binary64 float.  The
    translation is written once, over an interface [Number] listing the
    operations the source uses, and is read at two instances:
    - [binary64]: [spec_float] with the standard library's binary64
      operations (precision 53, maximal exponent 1024), with signed
      zeros, infinities and NaN.  This is what the program runs on.
    - [exact]: canonical rationals [Qc], for statements made "over exact
      arithmetic".

    Around the engine, the file also covers its callers and the code they
    rely on: the recomputation effects of the four calculator components,
    the bar widths of [ResultDisplay], [formatNumber] and [unformatNumber]
    of [InputField], the securities-code input of [CompanySearch], and
    [formatDate] of the EDINET route. *)

From Stdlib Require Import ZArith QArith Qcanon String Ascii Bool List Lia SpecFloat.
From Stdlib Require Import Nnat DecimalString DecimalN.
Import ListNotations.

(** ** The operations on [number] used by the source *)

Declare Scope num_scope.
Delimit Scope num_scope with num.

Class Number (num : Type) : Type := {
  (** the value denoted by a decimal literal of the source text *)
  lit : Q -> num;
  sub : num -> num -> num;
  mul : num -> num -> num;
  div : num -> num -> num;
  (** [a < b] and [a <= b] *)
  ltb : num -> num -> bool;
  leb : num -> num -> bool
}.

(** [a >= b] is [b <= a]; both are false as soon as one side is NaN. *)
Definition geb {num} `{Number num} (a b : num) : bool := leb b a.

Infix "-" := sub : num_scope.
Infix "*" := mul : num_scope.
Infix "/" := div : num_scope.
Infix "<?" := ltb (at level 70) : num_scope.
Infix "<=?" := leb (at level 70) : num_scope.
Infix ">=?" := geb (at level 70) : num_scope.

(** ** [throw new Error(message)] versus [return value] *)

Inductive Outcome (A : Type) : Type :=
| Returns (value : A)
| Throws (message : string).

Arguments Returns {A} value.
Arguments Throws {A} message.

Definition throws {A} (o : Outcome A) : bool :=
  match o with Throws _ => true | Returns _ => false end.

(** What a caller does with a ratio: [f] runs only when the computation
    returned; an exception propagates. *)
Definition and_then {A B} (o : Outcome A) (f : A -> B) : Outcome B :=
  match o with
  | Returns v => Returns (f v)
  | Throws e => Throws e
  end.

(** ** The judgment interfaces *)

Open Scope string_scope.

Module PSRJudgment.
(** ['undervalued' | 'fair' | 'high' | 'very-high'] *)
Inductive Level := undervalued | fair | high | very_high.
Record t := make {
  level : Level;
  color : string;
  borderColor : string;
  textColor : string;
  darkTextColor : string;
  title : string;
  description : string
}.
(** position of a level in the union type, most favourable first *)
Definition rank (l : Level) : nat :=
  match l with undervalued => 0 | fair => 1 | high => 2 | very_high => 3 end.
End PSRJudgment.

Module SafetyJudgment.
(** ['excellent' | 'good' | 'fair' | 'warning'] *)
Inductive Level := excellent | good | fair | warning.
Record t := make {
  level : Level;
  borderColor : string;
  textColor : string;
  darkTextColor : string;
  title : string;
  description : string
}.
Definition rank (l : Level) : nat :=
  match l with excellent => 0 | good => 1 | fair => 2 | warning => 3 end.
End SafetyJudgment.

Module GrowthJudgment.
(** ['strong' | 'moderate' | 'stable' | 'declining'] *)
Inductive Level := strong | moderate | stable | declining.
Record t := make {
  level : Level;
  borderColor : string;
  textColor : string;
  darkTextColor : string;
  title : string;
  description : string
}.
Definition rank (l : Level) : nat :=
  match l with strong => 0 | moderate => 1 | stable => 2 | declining => 3 end.
End GrowthJudgment.

Module ProfitabilityJudgment.
(** ['excellent' | 'good' | 'fair' | 'poor'] *)
Inductive Level := excellent | good | fair | poor.
Record t := make {
  level : Level;
  borderColor : string;
  textColor : string;
  darkTextColor : string;
  title : string;
  description : string
}.
Definition rank (l : Level) : nat :=
  match l with excellent => 0 | good => 1 | fair => 2 | poor => 3 end.
End ProfitabilityJudgment.

Module ValuationJudgment.
(** ['undervalued' | 'fair' | 'overvalued' | 'very-overvalued'] *)
Inductive Level := undervalued | fair | overvalued | very_overvalued.
Record t := make {
  level : Level;
  borderColor : string;
  textColor : string;
  darkTextColor : string;
  title : string;
  description : string
}.
Definition rank (l : Level) : nat :=
  match l with
  | undervalued => 0 | fair => 1 | overvalued => 2 | very_overvalued => 3
  end.
End ValuationJudgment.

(** ** The functions of [financial.ts] *)

Section Engine.

Context {num : Type} `{Number num}.
Local Open Scope num_scope.

(** Numeric literals of the source are written through [lit]. *)
Local Notation "0" := (lit 0).
Local Notation "1" := (lit 1).
Local Notation "2" := (lit 2).
Local Notation "3" := (lit 3).
Local Notation "4" := (lit 4).
Local Notation "5" := (lit 5).
Local Notation "10" := (lit 10).
Local Notation "15" := (lit 15).
Local Notation "20" := (lit 20).
Local Notation "30" := (lit 30).
Local Notation "40" := (lit 40).
Local Notation "50" := (lit 50).
Local Notation "100" := (lit 100).
Local Notation "150" := (lit 150).
Local Notation "200" := (lit 200).
Local Notation "1.5" := (lit 1.5).
Local Notation "1.0" := (lit 1.0).
Local Notation "0.7" := (lit 0.7).

Definition calculatePSR (marketCap revenue : num) : Outcome num :=
  if revenue <=? 0 then Throws "Revenue must be greater than 0"
  else Returns (marketCap / revenue).

Definition getPSRJudgment (psr : num) : PSRJudgment.t :=
  if psr <? 1 then
    {| PSRJudgment.level := PSRJudgment.undervalued;
       PSRJudgment.color := "green";
       PSRJudgment.borderColor := "border-green-500";
       PSRJudgment.textColor := "text-green-700";
       PSRJudgment.darkTextColor := "dark:text-green-400";
       PSRJudgment.title := "割安";
       PSRJudgment.description := "時価総額が売上高を下回っており、市場の期待値は控えめ" |}
  else if psr <? 2 then
    {| PSRJudgment.level := PSRJudgment.fair;
       PSRJudgment.color := "yellow";
       PSRJudgment.borderColor := "border-yellow-500";
       PSRJudgment.textColor := "text-yellow-700";
       PSRJudgment.darkTextColor := "dark:text-yellow-400";
       PSRJudgment.title := "適正〜やや高め";
       PSRJudgment.description := "時価総額は売上高と同程度、標準的な評価" |}
  else if psr <? 5 then
    {| PSRJudgment.level := PSRJudgment.high;
       PSRJudgment.color := "orange";
       PSRJudgment.borderColor := "border-orange-500";
       PSRJudgment.textColor := "text-orange-700";
       PSRJudgment.darkTextColor := "dark:text-orange-400";
       PSRJudgment.title := "高成長期待";
       PSRJudgment.description := "市場は将来の成長を見込んでいる" |}
  else
    {| PSRJudgment.level := PSRJudgment.very_high;
       PSRJudgment.color := "red";
       PSRJudgment.borderColor := "border-red-500";
       PSRJudgment.textColor := "text-red-700";
       PSRJudgment.darkTextColor := "dark:text-red-400";
       PSRJudgment.title := "非常に高い期待値";
       PSRJudgment.description := "高成長企業またはバブル的評価の可能性" |}.

Definition calculateCurrentRatio (currentAssets currentLiabilities : num) : Outcome num :=
  if currentLiabilities <=? 0 then Throws "Current liabilities must be greater than 0"
  else Returns ((currentAssets / currentLiabilities) * 100).

Definition calculateEquityRatio (equity totalAssets : num) : Outcome num :=
  if totalAssets <=? 0 then Throws "Total assets must be greater than 0"
  else Returns ((equity / totalAssets) * 100).

Definition getCurrentRatioJudgment (ratio : num) : SafetyJudgment.t :=
  if ratio >=? 200 then
    {| SafetyJudgment.level := SafetyJudgment.excellent;
       SafetyJudgment.borderColor := "border-green-500";
       SafetyJudgment.textColor := "text-green-700";
       SafetyJudgment.darkTextColor := "dark:text-green-400";
       SafetyJudgment.title := "優良";
       SafetyJudgment.description := "短期的な財務安定性が非常に高い" |}
  else if ratio >=? 150 then
    {| SafetyJudgment.level := SafetyJudgment.good;
       SafetyJudgment.borderColor := "border-blue-500";
       SafetyJudgment.textColor := "text-blue-700";
       SafetyJudgment.darkTextColor := "dark:text-blue-400";
       SafetyJudgment.title := "良好";
       SafetyJudgment.description := "事業運営に十分な流動性がある" |}
  else if ratio >=? 100 then
    {| SafetyJudgment.level := SafetyJudgment.fair;
       SafetyJudgment.borderColor := "border-yellow-500";
       SafetyJudgment.textColor := "text-yellow-700";
       SafetyJudgment.darkTextColor := "dark:text-yellow-400";
       SafetyJudgment.title := "普通";
       SafetyJudgment.description := "最低限の流動性バッファーあり" |}
  else
    {| SafetyJudgment.level := SafetyJudgment.warning;
       SafetyJudgment.borderColor := "border-red-500";
       SafetyJudgment.textColor := "text-red-700";
       SafetyJudgment.darkTextColor := "dark:text-red-400";
       SafetyJudgment.title := "要注意";
       SafetyJudgment.description := "流動負債が流動資産を上回っており、流動性に懸念" |}.

Definition getEquityRatioJudgment (ratio : num) : SafetyJudgment.t :=
  if ratio >=? 50 then
    {| SafetyJudgment.level := SafetyJudgment.excellent;
       SafetyJudgment.borderColor := "border-green-500";
       SafetyJudgment.textColor := "text-green-700";
       SafetyJudgment.darkTextColor := "dark:text-green-400";
       SafetyJudgment.title := "優良";
       SafetyJudgment.description := "財務的自立性が非常に高い" |}
  else if ratio >=? 40 then
    {| SafetyJudgment.level := SafetyJudgment.good;
       SafetyJudgment.borderColor := "border-blue-500";
       SafetyJudgment.textColor := "text-blue-700";
       SafetyJudgment.darkTextColor := "dark:text-blue-400";
       SafetyJudgment.title := "良好";
       SafetyJudgment.description := "強固な財務基盤を持つ" |}
  else if ratio >=? 20 then
    {| SafetyJudgment.level := SafetyJudgment.fair;
       SafetyJudgment.borderColor := "border-yellow-500";
       SafetyJudgment.textColor := "text-yellow-700";
       SafetyJudgment.darkTextColor := "dark:text-yellow-400";
       SafetyJudgment.title := "普通";
       SafetyJudgment.description := "中程度の財務安定性" |}
  else
    {| SafetyJudgment.level := SafetyJudgment.warning;
       SafetyJudgment.borderColor := "border-red-500";
       SafetyJudgment.textColor := "text-red-700";
       SafetyJudgment.darkTextColor := "dark:text-red-400";
       SafetyJudgment.title := "要注意";
       SafetyJudgment.description := "借入金への依存度が高い" |}.

Definition calculateCapExRatio (capex depreciation : num) : Outcome num :=
  if depreciation <=? 0 then Throws "Depreciation must be greater than 0"
  else Returns (capex / depreciation).

Definition calculateRevenueGrowth (currentRevenue pastRevenue : num) : Outcome num :=
  if pastRevenue <=? 0 then Throws "Past revenue must be greater than 0"
  else Returns (((currentRevenue - pastRevenue) / pastRevenue) * 100).

Definition getCapExRatioJudgment (ratio : num) : GrowthJudgment.t :=
  if ratio >=? 1.5 then
    {| GrowthJudgment.level := GrowthJudgment.strong;
       GrowthJudgment.borderColor := "border-green-500";
       GrowthJudgment.textColor := "text-green-700";
       GrowthJudgment.darkTextColor := "dark:text-green-400";
       GrowthJudgment.title := "積極投資";
       GrowthJudgment.description := "成長と資産更新に積極的に投資している" |}
  else if ratio >=? 1.0 then
    {| GrowthJudgment.level := GrowthJudgment.moderate;
       GrowthJudgment.borderColor := "border-blue-500";
       GrowthJudgment.textColor := "text-blue-700";
       GrowthJudgment.darkTextColor := "dark:text-blue-400";
       GrowthJudgment.title := "適正投資";
       GrowthJudgment.description := "資産を現状レベルで維持している" |}
  else if ratio >=? 0.7 then
    {| GrowthJudgment.level := GrowthJudgment.stable;
       GrowthJudgment.borderColor := "border-yellow-500";
       GrowthJudgment.textColor := "text-yellow-700";
       GrowthJudgment.darkTextColor := "dark:text-yellow-400";
       GrowthJudgment.title := "保守的";
       GrowthJudgment.description := "新規投資が限定的、資産ベースが縮小傾向の可能性" |}
  else
    {| GrowthJudgment.level := GrowthJudgment.declining;
       GrowthJudgment.borderColor := "border-red-500";
       GrowthJudgment.textColor := "text-red-700";
       GrowthJudgment.darkTextColor := "dark:text-red-400";
       GrowthJudgment.title := "投資不足";
       GrowthJudgment.description := "資産ベースを維持するには投資が不十分" |}.

Definition getRevenueGrowthJudgment (growthRate : num) : GrowthJudgment.t :=
  if growthRate >=? 50 then
    {| GrowthJudgment.level := GrowthJudgment.strong;
       GrowthJudgment.borderColor := "border-green-500";
       GrowthJudgment.textColor := "text-green-700";
       GrowthJudgment.darkTextColor := "dark:text-green-400";
       GrowthJudgment.title := "高成長";
       GrowthJudgment.description := "4年間で顕著な売上高拡大" |}
  else if growthRate >=? 20 then
    {| GrowthJudgment.level := GrowthJudgment.moderate;
       GrowthJudgment.borderColor := "border-blue-500";
       GrowthJudgment.textColor := "text-blue-700";
       GrowthJudgment.darkTextColor := "dark:text-blue-400";
       GrowthJudgment.title := "堅実な成長";
       GrowthJudgment.description := "健全な売上高成長軌道" |}
  else if growthRate >=? 0 then
    {| GrowthJudgment.level := GrowthJudgment.stable;
       GrowthJudgment.borderColor := "border-yellow-500";
       GrowthJudgment.textColor := "text-yellow-700";
       GrowthJudgment.darkTextColor := "dark:text-yellow-400";
       GrowthJudgment.title := "安定";
       GrowthJudgment.description := "売上高を維持または微増" |}
  else
    {| GrowthJudgment.level := GrowthJudgment.declining;
       GrowthJudgment.borderColor := "border-red-500";
       GrowthJudgment.textColor := "text-red-700";
       GrowthJudgment.darkTextColor := "dark:text-red-400";
       GrowthJudgment.title := "減少傾向";
       GrowthJudgment.description := "期間内に売上高が減少" |}.

Definition calculateROE (netIncome equity : num) : Outcome num :=
  if equity <=? 0 then Throws "Equity must be greater than 0"
  else Returns ((netIncome / equity) * 100).

Definition getROEJudgment (roe : num) : ProfitabilityJudgment.t :=
  if roe >=? 15 then
    {| ProfitabilityJudgment.level := ProfitabilityJudgment.excellent;
       ProfitabilityJudgment.borderColor := "border-green-500";
       ProfitabilityJudgment.textColor := "text-green-700";
       ProfitabilityJudgment.darkTextColor := "dark:text-green-400";
       ProfitabilityJudgment.title := "優良";
       ProfitabilityJudgment.description := "株主資本を非常に効率的に活用" |}
  else if roe >=? 10 then
    {| ProfitabilityJudgment.level := ProfitabilityJudgment.good;
       ProfitabilityJudgment.borderColor := "border-blue-500";
       ProfitabilityJudgment.textColor := "text-blue-700";
       ProfitabilityJudgment.darkTextColor := "dark:text-blue-400";
       ProfitabilityJudgment.title := "良好";
       ProfitabilityJudgment.description := "株主資本を効率的に活用" |}
  else if roe >=? 5 then
    {| ProfitabilityJudgment.level := ProfitabilityJudgment.fair;
       ProfitabilityJudgment.borderColor := "border-yellow-500";
       ProfitabilityJudgment.textColor := "text-yellow-700";
       ProfitabilityJudgment.darkTextColor := "dark:text-yellow-400";
       ProfitabilityJudgment.title := "普通";
       ProfitabilityJudgment.description := "改善の余地あり" |}
  else
    {| ProfitabilityJudgment.level := ProfitabilityJudgment.poor;
       ProfitabilityJudgment.borderColor := "border-red-500";
       ProfitabilityJudgment.textColor := "text-red-700";
       ProfitabilityJudgment.darkTextColor := "dark:text-red-400";
       ProfitabilityJudgment.title := "要改善";
       ProfitabilityJudgment.description := "資本効率が低い、または赤字" |}.

Definition calculateROA (netIncome totalAssets : num) : Outcome num :=
  if totalAssets <=? 0 then Throws "Total assets must be greater than 0"
  else Returns ((netIncome / totalAssets) * 100).

Definition getROAJudgment (roa : num) : ProfitabilityJudgment.t :=
  if roa >=? 10 then
    {| ProfitabilityJudgment.level := ProfitabilityJudgment.excellent;
       ProfitabilityJudgment.borderColor := "border-green-500";
       ProfitabilityJudgment.textColor := "text-green-700";
       ProfitabilityJudgment.darkTextColor := "dark:text-green-400";
       ProfitabilityJudgment.title := "優良";
       ProfitabilityJudgment.description := "総資産を非常に効率的に活用" |}
  else if roa >=? 5 then
    {| ProfitabilityJudgment.level := ProfitabilityJudgment.good;
       ProfitabilityJudgment.borderColor := "border-blue-500";
       ProfitabilityJudgment.textColor := "text-blue-700";
       ProfitabilityJudgment.darkTextColor := "dark:text-blue-400";
       ProfitabilityJudgment.title := "良好";
       ProfitabilityJudgment.description := "総資産を効率的に活用" |}
  else if roa >=? 2 then
    {| ProfitabilityJudgment.level := ProfitabilityJudgment.fair;
       ProfitabilityJudgment.borderColor := "border-yellow-500";
       ProfitabilityJudgment.textColor := "text-yellow-700";
       ProfitabilityJudgment.darkTextColor := "dark:text-yellow-400";
       ProfitabilityJudgment.title := "普通";
       ProfitabilityJudgment.description := "改善の余地あり" |}
  else
    {| ProfitabilityJudgment.level := ProfitabilityJudgment.poor;
       ProfitabilityJudgment.borderColor := "border-red-500";
       ProfitabilityJudgment.textColor := "text-red-700";
       ProfitabilityJudgment.darkTextColor := "dark:text-red-400";
       ProfitabilityJudgment.title := "要改善";
       ProfitabilityJudgment.description := "資産効率が低い、または赤字" |}.

Definition calculateOperatingMargin (operatingIncome revenue : num) : Outcome num :=
  if revenue <=? 0 then Throws "Revenue must be greater than 0"
  else Returns ((operatingIncome / revenue) * 100).

Definition getOperatingMarginJudgment (margin : num) : ProfitabilityJudgment.t :=
  if margin >=? 20 then
    {| ProfitabilityJudgment.level := ProfitabilityJudgment.excellent;
       ProfitabilityJudgment.borderColor := "border-green-500";
       ProfitabilityJudgment.textColor := "text-green-700";
       ProfitabilityJudgment.darkTextColor := "dark:text-green-400";
       ProfitabilityJudgment.title := "優良";
       ProfitabilityJudgment.description := "非常に高い収益性" |}
  else if margin >=? 10 then
    {| ProfitabilityJudgment.level := ProfitabilityJudgment.good;
       ProfitabilityJudgment.borderColor := "border-blue-500";
       ProfitabilityJudgment.textColor := "text-blue-700";
       ProfitabilityJudgment.darkTextColor := "dark:text-blue-400";
       ProfitabilityJudgment.title := "良好";
       ProfitabilityJudgment.description := "健全な収益性" |}
  else if margin >=? 5 then
    {| ProfitabilityJudgment.level := ProfitabilityJudgment.fair;
       ProfitabilityJudgment.borderColor := "border-yellow-500";
       ProfitabilityJudgment.textColor := "text-yellow-700";
       ProfitabilityJudgment.darkTextColor := "dark:text-yellow-400";
       ProfitabilityJudgment.title := "普通";
       ProfitabilityJudgment.description := "改善の余地あり" |}
  else
    {| ProfitabilityJudgment.level := ProfitabilityJudgment.poor;
       ProfitabilityJudgment.borderColor := "border-red-500";
       ProfitabilityJudgment.textColor := "text-red-700";
       ProfitabilityJudgment.darkTextColor := "dark:text-red-400";
       ProfitabilityJudgment.title := "要改善";
       ProfitabilityJudgment.description := "収益性が低い、または赤字" |}.

Definition calculatePER (marketCap netIncome : num) : Outcome num :=
  if netIncome <=? 0 then Throws "Net income must be greater than 0"
  else Returns (marketCap / netIncome).

Definition getPERJudgment (per : num) : ValuationJudgment.t :=
  if per <? 10 then
    {| ValuationJudgment.level := ValuationJudgment.undervalued;
       ValuationJudgment.borderColor := "border-green-500";
       ValuationJudgment.textColor := "text-green-700";
       ValuationJudgment.darkTextColor := "dark:text-green-400";
       ValuationJudgment.title := "割安";
       ValuationJudgment.description := "利益に対して株価が低い" |}
  else if per <? 20 then
    {| ValuationJudgment.level := ValuationJudgment.fair;
       ValuationJudgment.borderColor := "border-blue-500";
       ValuationJudgment.textColor := "text-blue-700";
       ValuationJudgment.darkTextColor := "dark:text-blue-400";
       ValuationJudgment.title := "適正";
       ValuationJudgment.description := "標準的な株価水準" |}
  else if per <? 30 then
    {| ValuationJudgment.level := ValuationJudgment.overvalued;
       ValuationJudgment.borderColor := "border-yellow-500";
       ValuationJudgment.textColor := "text-yellow-700";
       ValuationJudgment.darkTextColor := "dark:text-yellow-400";
       ValuationJudgment.title := "やや割高";
       ValuationJudgment.description := "成長期待が織り込まれている" |}
  else
    {| ValuationJudgment.level := ValuationJudgment.very_overvalued;
       ValuationJudgment.borderColor := "border-red-500";
       ValuationJudgment.textColor := "text-red-700";
       ValuationJudgment.darkTextColor := "dark:text-red-400";
       ValuationJudgment.title := "割高";
       ValuationJudgment.description := "高い成長期待、またはバブル的" |}.

Definition calculatePBR (marketCap equity : num) : Outcome num :=
  if equity <=? 0 then Throws "Equity must be greater than 0"
  else Returns (marketCap / equity).

Definition getPBRJudgment (pbr : num) : ValuationJudgment.t :=
  if pbr <? 1 then
    {| ValuationJudgment.level := ValuationJudgment.undervalued;
       ValuationJudgment.borderColor := "border-green-500";
       ValuationJudgment.textColor := "text-green-700";
       ValuationJudgment.darkTextColor := "dark:text-green-400";
       ValuationJudgment.title := "割安";
       ValuationJudgment.description := "解散価値を下回る株価" |}
  else if pbr <? 2 then
    {| ValuationJudgment.level := ValuationJudgment.fair;
       ValuationJudgment.borderColor := "border-blue-500";
       ValuationJudgment.textColor := "text-blue-700";
       ValuationJudgment.darkTextColor := "dark:text-blue-400";
       ValuationJudgment.title := "適正";
       ValuationJudgment.description := "標準的な株価水準" |}
  else if pbr <? 3 then
    {| ValuationJudgment.level := ValuationJudgment.overvalued;
       ValuationJudgment.borderColor := "border-yellow-500";
       ValuationJudgment.textColor := "text-yellow-700";
       ValuationJudgment.darkTextColor := "dark:text-yellow-400";
       ValuationJudgment.title := "やや割高";
       ValuationJudgment.description := "成長期待が織り込まれている" |}
  else
    {| ValuationJudgment.level := ValuationJudgment.very_overvalued;
       ValuationJudgment.borderColor := "border-red-500";
       ValuationJudgment.textColor := "text-red-700";
       ValuationJudgment.darkTextColor := "dark:text-red-400";
       ValuationJudgment.title := "割高";
       ValuationJudgment.description := "高い成長期待、またはバブル的" |}.

Definition calculateDividendYield (annualDividend stockPrice : num) : Outcome num :=
  if stockPrice <=? 0 then Throws "Stock price must be greater than 0"
  else Returns ((annualDividend / stockPrice) * 100).

Definition getDividendYieldJudgment (yieldPercent : num) : ValuationJudgment.t :=
  if yieldPercent >=? 4 then
    {| ValuationJudgment.level := ValuationJudgment.undervalued;
       ValuationJudgment.borderColor := "border-green-500";
       ValuationJudgment.textColor := "text-green-700";
       ValuationJudgment.darkTextColor := "dark:text-green-400";
       ValuationJudgment.title := "高配当";
       ValuationJudgment.description := "インカムゲイン重視の投資家向け" |}
  else if yieldPercent >=? 2 then
    {| ValuationJudgment.level := ValuationJudgment.fair;
       ValuationJudgment.borderColor := "border-blue-500";
       ValuationJudgment.textColor := "text-blue-700";
       ValuationJudgment.darkTextColor := "dark:text-blue-400";
       ValuationJudgment.title := "標準的";
       ValuationJudgment.description := "平均的な配当水準" |}
  else if yieldPercent >=? 1 then
    {| ValuationJudgment.level := ValuationJudgment.overvalued;
       ValuationJudgment.borderColor := "border-yellow-500";
       ValuationJudgment.textColor := "text-yellow-700";
       ValuationJudgment.darkTextColor := "dark:text-yellow-400";
       ValuationJudgment.title := "低配当";
       ValuationJudgment.description := "成長への再投資重視" |}
  else
    {| ValuationJudgment.level := ValuationJudgment.very_overvalued;
       ValuationJudgment.borderColor := "border-red-500";
       ValuationJudgment.textColor := "text-red-700";
       ValuationJudgment.darkTextColor := "dark:text-red-400";
       ValuationJudgment.title := "無配当的";
       ValuationJudgment.description := "配当をほぼ出していない" |}.
(** *** The eleven metrics, as one family

    [calculate] and [judgmentRank] dispatch to the functions above; they
    exist only so that a property of "each of the eleven functions" is one
    statement.  [judgmentRank m x] is the position of the level chosen by
    the classifier of [m], counted from the first (most favourable) level
    of its union type. *)

Inductive Metric :=
| PSR | CurrentRatio | EquityRatio | CapExRatio | RevenueGrowth
| ROE | ROA | OperatingMargin | PER | PBR | DividendYield.

Definition calculate (m : Metric) : num -> num -> Outcome num :=
  match m with
  | PSR => calculatePSR
  | CurrentRatio => calculateCurrentRatio
  | EquityRatio => calculateEquityRatio
  | CapExRatio => calculateCapExRatio
  | RevenueGrowth => calculateRevenueGrowth
  | ROE => calculateROE
  | ROA => calculateROA
  | OperatingMargin => calculateOperatingMargin
  | PER => calculatePER
  | PBR => calculatePBR
  | DividendYield => calculateDividendYield
  end.

Definition JudgmentOf (m : Metric) : Type :=
  match m with
  | PSR => PSRJudgment.t
  | CurrentRatio | EquityRatio => SafetyJudgment.t
  | CapExRatio | RevenueGrowth => GrowthJudgment.t
  | ROE | ROA | OperatingMargin => ProfitabilityJudgment.t
  | PER | PBR | DividendYield => ValuationJudgment.t
  end.

Definition getJudgment (m : Metric) : num -> JudgmentOf m :=
  match m with
  | PSR => getPSRJudgment
  | CurrentRatio => getCurrentRatioJudgment
  | EquityRatio => getEquityRatioJudgment
  | CapExRatio => getCapExRatioJudgment
  | RevenueGrowth => getRevenueGrowthJudgment
  | ROE => getROEJudgment
  | ROA => getROAJudgment
  | OperatingMargin => getOperatingMarginJudgment
  | PER => getPERJudgment
  | PBR => getPBRJudgment
  | DividendYield => getDividendYieldJudgment
  end.

Definition judgmentRank (m : Metric) (x : num) : nat :=
  match m with
  | PSR => PSRJudgment.rank (PSRJudgment.level (getPSRJudgment x))
  | CurrentRatio => SafetyJudgment.rank (SafetyJudgment.level (getCurrentRatioJudgment x))
  | EquityRatio => SafetyJudgment.rank (SafetyJudgment.level (getEquityRatioJudgment x))
  | CapExRatio => GrowthJudgment.rank (GrowthJudgment.level (getCapExRatioJudgment x))
  | RevenueGrowth => GrowthJudgment.rank (GrowthJudgment.level (getRevenueGrowthJudgment x))
  | ROE => ProfitabilityJudgment.rank (ProfitabilityJudgment.level (getROEJudgment x))
  | ROA => ProfitabilityJudgment.rank (ProfitabilityJudgment.level (getROAJudgment x))
  | OperatingMargin =>
      ProfitabilityJudgment.rank (ProfitabilityJudgment.level (getOperatingMarginJudgment x))
  | PER => ValuationJudgment.rank (ValuationJudgment.level (getPERJudgment x))
  | PBR => ValuationJudgment.rank (ValuationJudgment.level (getPBRJudgment x))
  | DividendYield =>
      ValuationJudgment.rank (ValuationJudgment.level (getDividendYieldJudgment x))
  end.

(** The Tailwind classes of the judgment chosen for [x]:
    [borderColor], [textColor], [darkTextColor]. *)
Definition judgmentStyle (m : Metric) (x : num) : string * string * string :=
  match m with
  | PSR =>
      let j := getPSRJudgment x in
      (PSRJudgment.borderColor j, PSRJudgment.textColor j,
       PSRJudgment.darkTextColor j)
  | CurrentRatio =>
      let j := getCurrentRatioJudgment x in
      (SafetyJudgment.borderColor j, SafetyJudgment.textColor j,
       SafetyJudgment.darkTextColor j)
  | EquityRatio =>
      let j := getEquityRatioJudgment x in
      (SafetyJudgment.borderColor j, SafetyJudgment.textColor j,
       SafetyJudgment.darkTextColor j)
  | CapExRatio =>
      let j := getCapExRatioJudgment x in
      (GrowthJudgment.borderColor j, GrowthJudgment.textColor j,
       GrowthJudgment.darkTextColor j)
  | RevenueGrowth =>
      let j := getRevenueGrowthJudgment x in
      (GrowthJudgment.borderColor j, GrowthJudgment.textColor j,
       GrowthJudgment.darkTextColor j)
  | ROE =>
      let j := getROEJudgment x in
      (ProfitabilityJudgment.borderColor j, ProfitabilityJudgment.textColor j,
       ProfitabilityJudgment.darkTextColor j)
  | ROA =>
      let j := getROAJudgment x in
      (ProfitabilityJudgment.borderColor j, ProfitabilityJudgment.textColor j,
       ProfitabilityJudgment.darkTextColor j)
  | OperatingMargin =>
      let j := getOperatingMarginJudgment x in
      (ProfitabilityJudgment.borderColor j, ProfitabilityJudgment.textColor j,
       ProfitabilityJudgment.darkTextColor j)
  | PER =>
      let j := getPERJudgment x in
      (ValuationJudgment.borderColor j, ValuationJudgment.textColor j,
       ValuationJudgment.darkTextColor j)
  | PBR =>
      let j := getPBRJudgment x in
      (ValuationJudgment.borderColor j, ValuationJudgment.textColor j,
       ValuationJudgment.darkTextColor j)
  | DividendYield =>
      let j := getDividendYieldJudgment x in
      (ValuationJudgment.borderColor j, ValuationJudgment.textColor j,
       ValuationJudgment.darkTextColor j)
  end.

End Engine.

(** ** The two readings of [number] *)

(** *** binary64 *)

Definition prec : Z := 53.
Definition emax : Z := 1024.

Definition number : Type := spec_float.

(** Values of [number] that a JavaScript engine can hold. *)
Definition is_double (x : number) : bool := valid_binary prec emax x.

Definition number_of_Z (z : Z) : number := binary_normalize prec emax z 0 false.

(** A decimal literal denotes the double nearest to it (ties to even).
    For a literal [n/d] whose [n] and [d] are below [2^53], this is the
    correctly rounded quotient of the two integers. *)
Definition number_of_literal (q : Q) : number :=
  SFdiv prec emax (number_of_Z (Qnum q)) (number_of_Z (Zpos (Qden q))).

#[export] Instance binary64 : Number number := {|
  lit := number_of_literal;
  sub := SFsub prec emax;
  mul := SFmul prec emax;
  div := SFdiv prec emax;
  ltb := SFltb;
  leb := SFleb
|}.

(** [f64 q] is the literal [q] read as a [number]. *)
Abbreviation f64 := (@lit number binary64).

Definition NaN : number := S754_nan.
Definition Infinity : number := S754_infinity false.

Definition isNaN (x : number) : bool :=
  match x with S754_nan => true | _ => false end.

(** [Number.isFinite] *)
Definition isFinite (x : number) : bool :=
  match x with S754_zero _ | S754_finite _ _ _ => true | _ => false end.

(** Sign classes of a denominator: [+0] and [-0] are both zero. *)
Definition is_zero (x : number) : bool :=
  match x with S754_zero _ => true | _ => false end.

Definition is_negative (x : number) : bool :=
  match x with
  | S754_infinity true | S754_finite true _ _ => true
  | _ => false
  end.

Definition is_positive (x : number) : bool :=
  match x with
  | S754_infinity false | S754_finite false _ _ => true
  | _ => false
  end.

(** *** exact rationals *)

#[export] Instance exact : Number Qc := {|
  lit := Q2Qc;
  sub := Qcminus;
  mul := Qcmult;
  div := Qcdiv;
  ltb := fun a b => match (a ?= b)%Qc with Lt => true | _ => false end;
  leb := fun a b => match (a ?= b)%Qc with Gt => false | _ => true end
|}.

(** ** What the specification tabulates *)

Section Tables.

Context {num : Type} `{Number num}.
Local Open Scope num_scope.

(** The "Formula" column of the table of compute functions; [a] is the
    first operand and [d] the required denominator. *)
Definition formula (m : Metric) (a d : num) : num :=
  match m with
  | PSR | CapExRatio | PER | PBR => a / d
  | RevenueGrowth => (a - d) / d * lit 100
  | CurrentRatio | EquityRatio | ROE | ROA | OperatingMargin | DividendYield =>
      a / d * lit 100
  end.

(** The threshold tables of the classifiers.  [Below] tables test
    [ratio < t] against ascending thresholds, [AtLeast] tables test
    [ratio >= t] against descending thresholds. *)
Inductive Rule := Below | AtLeast.

Definition rule_of (m : Metric) : Rule :=
  match m with
  | PSR | PER | PBR => Below
  | _ => AtLeast
  end.

Definition thresholds (m : Metric) : list Q :=
  match m with
  | PSR => [1; 2; 5]
  | CurrentRatio => [200; 150; 100]
  | EquityRatio => [50; 40; 20]
  | CapExRatio => [1.5; 1.0; 0.7]
  | RevenueGrowth => [50; 20; 0]
  | ROE => [15; 10; 5]
  | ROA => [10; 5; 2]
  | OperatingMargin => [20; 10; 5]
  | PER => [10; 20; 30]
  | PBR => [1; 2; 3]
  | DividendYield => [4; 2; 1]
  end%Q.

(** The comparison a table row performs on a ratio. *)
Definition passes (t : Rule) (x : num) (q : Q) : bool :=
  match t with
  | Below => x <? lit q
  | AtLeast => x >=? lit q
  end.

(** First match wins; when no row matches, the result is the row count,
    that is the last band. *)
Fixpoint first_match (t : Rule) (x : num) (rows : list Q) : nat :=
  match rows with
  | [] => 0
  | q :: rest => if passes t x q then 0 else S (first_match t x rest)
  end.

(** A band is a half-open interval [lo <= x < hi]; a missing bound is
    infinite. *)
Definition Band : Type := option Q * option Q.

Definition in_band (x : num) (b : Band) : bool :=
  match fst b with None => true | Some lo => lit lo <=? x end
  && match snd b with None => true | Some hi => x <? lit hi end.

(** The bands cut out by a table, in the order of its rows. *)
Fixpoint bands_below (lo : option Q) (rows : list Q) : list Band :=
  match rows with
  | [] => [(lo, None)]
  | q :: rest => (lo, Some q) :: bands_below (Some q) rest
  end.

Fixpoint bands_at_least (hi : option Q) (rows : list Q) : list Band :=
  match rows with
  | [] => [(None, hi)]
  | q :: rest => (Some q, hi) :: bands_at_least (Some q) rest
  end.

Definition bands (m : Metric) : list Band :=
  match rule_of m with
  | Below => bands_below None (thresholds m)
  | AtLeast => bands_at_least None (thresholds m)
  end.

End Tables.

(** ** Well-formedness of a threshold table, on binary64

    The rows of a [Below] table ascend strictly and those of an
    [AtLeast] table descend strictly; no threshold is NaN. *)

Definition in_order (t : Rule) (p q : Q) : bool :=
  match t with
  | Below => SFltb (f64 p) (f64 q)
  | AtLeast => SFltb (f64 q) (f64 p)
  end.

Fixpoint ordered_from (t : Rule) (prev : option Q) (rows : list Q) : bool :=
  match rows with
  | [] => true
  | q :: rest =>
      negb (isNaN (f64 q))
      && match prev with None => true | Some p => in_order t p q end
      && ordered_from t (Some q) rest
  end.

(** Two consecutive bands share the bound between them. *)
Definition adjacent (t : Rule) (b1 b2 : Band) : Prop :=
  match t with
  | Below => snd b1 = fst b2
  | AtLeast => fst b1 = snd b2
  end.

Fixpoint contiguous (t : Rule) (bs : list Band) : Prop :=
  match bs with
  | b1 :: (b2 :: _) as rest => adjacent t b1 b2 /\ contiguous t rest
  | _ => True
  end.

(** The first and the last band are unbounded on their outer side. *)
Definition open_ended (t : Rule) (bs : list Band) : Prop :=
  match t with
  | Below => option_map fst (hd_error bs) = Some None
             /\ option_map snd (hd_error (rev bs)) = Some None
  | AtLeast => option_map snd (hd_error bs) = Some None
               /\ option_map fst (hd_error (rev bs)) = Some None
  end.

(** ** The calculator components

    Each calculator component keeps its input fields as strings and
    recomputes a ratio in a [useEffect] whenever a field changes.  An
    effect converts its two fields with [Number(...)], tests them, and
    passes either the ratio or [null] to the state setter.  Below, an
    effect is the function from the two field strings to the value handed
    to the setter; an exception raised by the engine would escape the
    effect, hence the [Outcome].

    [Number] applied to a string is the platform's string-to-number
    conversion; it is the parameter [toNumber]. *)

Definition gtb {num} `{Number num} (a b : num) : bool := ltb b a.
Infix ">?" := gtb (at level 70) : num_scope.

Section Calculators.

Context {num : Type} `{Number num}.
Variable toNumber : string -> num.
Local Open Scope num_scope.
Local Notation "0" := (lit 0).

(** *** GrowthCalculator *)

Definition autoCalculatePSR (revenue marketCap : string) : Outcome (option num) :=
  let revenueNum := toNumber revenue in
  let marketCapNum := toNumber marketCap in
  if (revenueNum >? 0) && (marketCapNum >? 0) then
    and_then (calculatePSR marketCapNum revenueNum) Some
  else Returns None.

Definition autoCalculateCapExRatio (capex depreciation : string)
  : Outcome (option num) :=
  let capexNum := toNumber capex in
  let depreciationNum := toNumber depreciation in
  if (capexNum >? 0) && (depreciationNum >? 0) then
    and_then (calculateCapExRatio capexNum depreciationNum) Some
  else Returns None.

Definition autoCalculateRevenueGrowth (currentRevenue pastRevenue : string)
  : Outcome (option num) :=
  let currentNum := toNumber currentRevenue in
  let pastNum := toNumber pastRevenue in
  if (currentNum >? 0) && (pastNum >? 0) then
    and_then (calculateRevenueGrowth currentNum pastNum) Some
  else Returns None.

(** *** ProfitabilityCalculator *)

Definition autoCalculateROE (netIncome equity : string) : Outcome (option num) :=
  let incomeNum := toNumber netIncome in
  let equityNum := toNumber equity in
  if (incomeNum >? 0) && (equityNum >? 0) then
    and_then (calculateROE incomeNum equityNum) Some
  else Returns None.

Definition autoCalculateROA (netIncome totalAssets : string)
  : Outcome (option num) :=
  let incomeNum := toNumber netIncome in
  let assetsNum := toNumber totalAssets in
  if (incomeNum >? 0) && (assetsNum >? 0) then
    and_then (calculateROA incomeNum assetsNum) Some
  else Returns None.

Definition autoCalculateOperatingMargin (operatingIncome revenue : string)
  : Outcome (option num) :=
  let opIncomeNum := toNumber operatingIncome in
  let revenueNum := toNumber revenue in
  if (opIncomeNum >? 0) && (revenueNum >? 0) then
    and_then (calculateOperatingMargin opIncomeNum revenueNum) Some
  else Returns None.

(** *** SafetyCalculator *)

Definition autoCalculateCurrentRatio (currentAssets currentLiabilities : string)
  : Outcome (option num) :=
  let assetsNum := toNumber currentAssets in
  let liabilitiesNum := toNumber currentLiabilities in
  if (assetsNum >? 0) && (liabilitiesNum >? 0) then
    and_then (calculateCurrentRatio assetsNum liabilitiesNum) Some
  else Returns None.

Definition autoCalculateEquityRatio (equity totalAssets : string)
  : Outcome (option num) :=
  let equityNum := toNumber equity in
  let assetsNum := toNumber totalAssets in
  if (equityNum >? 0) && (assetsNum >? 0) then
    and_then (calculateEquityRatio equityNum assetsNum) Some
  else Returns None.

(** *** ValuationCalculator *)

Definition autoCalculatePER (marketCapPER netIncome : string)
  : Outcome (option num) :=
  let marketCapNum := toNumber marketCapPER in
  let incomeNum := toNumber netIncome in
  if (marketCapNum >? 0) && (incomeNum >? 0) then
    and_then (calculatePER marketCapNum incomeNum) Some
  else Returns None.

Definition autoCalculatePBR (marketCapPBR equity : string)
  : Outcome (option num) :=
  let marketCapNum := toNumber marketCapPBR in
  let equityNum := toNumber equity in
  if (marketCapNum >? 0) && (equityNum >? 0) then
    and_then (calculatePBR marketCapNum equityNum) Some
  else Returns None.

Definition autoCalculateDividendYield (annualDividend stockPrice : string)
  : Outcome (option num) :=
  let dividendNum := toNumber annualDividend in
  let priceNum := toNumber stockPrice in
  if (dividendNum >=? 0) && (priceNum >? 0) then
    and_then (calculateDividendYield dividendNum priceNum) Some
  else Returns None.

(** The eleven effects as one family: [autoCalculate m a d] is the effect
    of metric [m] run on the field [a] holding the first operand of
    [calculate m] and the field [d] holding its denominator. *)
Definition autoCalculate (m : Metric) (a d : string) : Outcome (option num) :=
  match m with
  | PSR => autoCalculatePSR d a
  | CurrentRatio => autoCalculateCurrentRatio a d
  | EquityRatio => autoCalculateEquityRatio a d
  | CapExRatio => autoCalculateCapExRatio a d
  | RevenueGrowth => autoCalculateRevenueGrowth a d
  | ROE => autoCalculateROE a d
  | ROA => autoCalculateROA a d
  | OperatingMargin => autoCalculateOperatingMargin a d
  | PER => autoCalculatePER a d
  | PBR => autoCalculatePBR a d
  | DividendYield => autoCalculateDividendYield a d
  end.

(** The test an effect applies to its first operand: [>= 0] for the
    annual dividend, [> 0] for every other figure. *)
Definition numerator_accepted (m : Metric) (x : num) : bool :=
  match m with
  | DividendYield => x >=? 0
  | _ => x >? 0
  end.

End Calculators.

(** ** Strings

    A JavaScript string is a sequence of UTF-16 code units; here a string
    is the sequence of bytes of its UTF-8 encoding.  The functions below
    only test for, delete or produce ASCII characters, and an ASCII
    character is one unit in both encodings while no unit of a non-ASCII
    character is an ASCII byte, so they act alike on both. *)

Definition is_digit (c : ascii) : bool :=
  match c with
  | "0" | "1" | "2" | "3" | "4" | "5" | "6" | "7" | "8" | "9" => true
  | _ => false
  end%char.

(** Every character of [s] satisfies [P]. *)
Fixpoint all_chars (P : ascii -> bool) (s : string) : bool :=
  match s with
  | EmptyString => true
  | String c rest => P c && all_chars P rest
  end.

(** [s.replace(/\D/g, '')] *)
Fixpoint replace_non_digits (s : string) : string :=
  match s with
  | EmptyString => EmptyString
  | String c rest =>
      if is_digit c then String c (replace_non_digits rest)
      else replace_non_digits rest
  end.

Definition not_comma (c : ascii) : bool := negb (Ascii.eqb c ",").

(** [s.replace(/,/g, '')] *)
Fixpoint replace_commas (s : string) : string :=
  match s with
  | EmptyString => EmptyString
  | String c rest =>
      if Ascii.eqb c "," then replace_commas rest
      else String c (replace_commas rest)
  end.

(** [!s]: the empty string is the only falsy string. *)
Definition falsy (s : string) : bool :=
  match s with EmptyString => true | _ => false end.

(** *** Numbers and digit strings *)

(** The integer denoted by a string of decimal digits (leading zeros
    allowed), and the decimal numeral of an integer. *)
Definition decimal_value (digits : string) : N :=
  match NilEmpty.uint_of_string digits with
  | Some d => N.of_uint d
  | None => 0
  end.

Definition decimal_string (n : N) : string :=
  NilEmpty.string_of_uint (N.to_uint n).

(** [Number(s)] for a non-empty string of digits: the double nearest to
    the integer it denotes. *)
Definition Number_of_digits (digits : string) : number :=
  number_of_Z (Z.of_N (decimal_value digits)).

(** The integer part of a finite double. *)
Definition integer_of (x : number) : Z :=
  match x with
  | S754_finite s m e => cond_Zopp s (Z.shiftl (Zpos m) e)
  | _ => 0
  end.

(** Decimal digits in groups of three, separated by commas;
    [group_from n s] expects [n] to be the length of [s]. *)
Fixpoint group_from (n : nat) (s : string) : string :=
  match s with
  | EmptyString => EmptyString
  | String c rest =>
      let left := pred n in
      String c (if negb (Nat.eqb left 0) && Nat.eqb (Nat.modulo left 3) 0
                then String "," (group_from left rest)
                else group_from left rest)
  end.

Definition group_thousands (s : string) : string :=
  group_from (String.length s) s.

(** [x.toLocaleString('ja-JP')] for an integral [x], a zero, an infinity
    or NaN: Western digits, comma every three digits, no fraction.
    (Values with a fractional part are not covered; [formatNumber] only
    formats the result of [Number] on a string of digits.)  For integers
    of magnitude below [2^53] these are the digits the platform prints.
    Above, the platform prints the shortest digits that read back as the
    same double, padded with zeros, where this definition prints the
    exact integer; every statement below that depends on the digits
    stays below [2^53]. *)
Definition toLocaleString_jaJP (x : number) : string :=
  match x with
  | S754_nan => "NaN"
  | S754_infinity s => (if s then "-" else "") ++ "∞"
  | S754_zero s => if s then "-0" else "0"
  | S754_finite s _ _ =>
      (if s then "-" else "")
      ++ group_thousands (decimal_string (Z.to_N (Z.abs (integer_of x))))
  end.

(** ** InputField *)

Definition formatNumber (value : string) : string :=
  if falsy value then ""
  else
    let numericValue := replace_non_digits value in
    if falsy numericValue then ""
    else toLocaleString_jaJP (Number_of_digits numericValue).

Definition unformatNumber (value : string) : string :=
  replace_commas value.

(** [handleChange]: the raw value handed to the parent's [onChange]. *)
Definition handleChange (inputValue : string) : string :=
  let rawValue := unformatNumber inputValue in
  rawValue.

(** ** ResultDisplay *)

(** [Math.max(a, b)]: NaN if an argument is NaN; otherwise the running
    maximum starting from [-Infinity], with [+0] above [-0]. *)
Definition max_step (highest x : number) : number :=
  match x, highest with
  | S754_zero false, S754_zero true => x
  | _, _ => if SFltb highest x then x else highest
  end.

Definition Math_max (a b : number) : number :=
  if isNaN a || isNaN b then NaN
  else fold_left max_step [a; b] (S754_infinity true).

Section ResultDisplay.

Variable toNumber : string -> number.
Local Open Scope num_scope.

(** The widths, in percent, of the market-capitalisation bar and of the
    revenue bar. *)
Definition barWidths (marketCap revenue : string) : number * number :=
  let marketCapNum := toNumber (replace_commas marketCap) in
  let revenueNum := toNumber (replace_commas revenue) in
  let maxValue := Math_max marketCapNum revenueNum in
  let marketCapWidth := (marketCapNum / maxValue) * f64 100 in
  let revenueWidth := (revenueNum / maxValue) * f64 100 in
  (marketCapWidth, revenueWidth).

End ResultDisplay.

(** ** CompanySearch *)

(** [s.slice(0, 4)] *)
Definition slice_0_4 (s : string) : string := String.substring 0 4 s.

(** The [onChange] handler of the securities-code input: the new value of
    [securitiesCode]. *)
Definition onCodeChange (value : string) : string :=
  slice_0_4 (replace_non_digits value).

(** The [disabled] attribute of the fetch button. *)
Definition fetchDisabled (loading : bool) (securitiesCode : string) : bool :=
  loading || negb (Nat.eqb (String.length securitiesCode) 4).

(** The test at the head of [handleFetchData]; when it holds the handler
    sets the error message and returns without a request. *)
Definition codeRejected (securitiesCode : string) : bool :=
  falsy securitiesCode || negb (Nat.eqb (String.length securitiesCode) 4).

(** ** The EDINET route: [formatDate]

    [formatDate] reads three fields of a [Date]; [DateFields] holds them
    for a valid date of a non-negative year ([getMonth] counts from 0).
    [String(n)] of a non-negative integer is its decimal numeral. *)

Record DateFields := {
  getFullYear : N;
  getMonth : N;
  getDate : N
}.

(** [s.padStart(2, '0')] *)
Definition padStart_2_0 (s : string) : string :=
  match String.length s with
  | 0 => "00"
  | 1 => String "0" s
  | _ => s
  end%nat.

Definition formatDate (date : DateFields) : string :=
  let year := getFullYear date in
  let month := padStart_2_0 (decimal_string (getMonth date + 1)) in
  let day := padStart_2_0 (decimal_string (getDate date)) in
  decimal_string year ++ "-" ++ month ++ "-" ++ day.

(** Reading a [YYYY-MM-DD] string back. *)
Definition parseDate (s : string) : DateFields :=
  {| getFullYear := decimal_value (String.substring 0 4 s);
     getMonth := N.pred (decimal_value (String.substring 5 2 s));
     getDate := decimal_value (String.substring 8 2 s) |}.

(** Checks used to cover the calendar by evaluation.
    [all_from P start count] tests [P] on [start], ..., [start + count - 1]. *)
Definition all_from (P : N -> bool) (start count : N) : bool :=
  snd (N.iter count
         (fun st => (N.succ (fst st), snd st && P (fst st)))
         (start, true)).

Definition year_has_four_digits (year : N) : bool :=
  Nat.eqb (String.length (decimal_string year)) 4.

Definition month_day_suffix (month date : N) : string :=
  "-" ++ padStart_2_0 (decimal_string (month + 1))
      ++ "-" ++ padStart_2_0 (decimal_string date).

Definition suffix_is_well_formed (month date : nat) : bool :=
  let s := month_day_suffix (N.of_nat month) (N.of_nat date) in
  Nat.eqb (String.length s) 6
  && String.eqb (String.substring 0 1 s) "-"
  && N.eqb (decimal_value (String.substring 1 2 s)) (N.of_nat month + 1)
  && String.eqb (String.substring 3 1 s) "-"
  && N.eqb (decimal_value (String.substring 4 2 s)) (N.of_nat date).

(** ** Two extreme figures *)


(** ** A sign for every non-NaN number *)

Definition has_sign (sx : bool) (r : number) : Prop :=
  match r with
  | S754_nan => False
  | S754_zero s | S754_infinity s | S754_finite s _ _ => s = sx
  end.

(** ** The colour of a band

    The palette the classifiers draw from: position [k] of a PSR judgment
    and of every other judgment. *)
Definition band_colour (m : Metric) (k : nat) : string :=
  match m, k with
  | _, 0 => "green"
  | PSR, 1 => "yellow"
  | PSR, 2 => "orange"
  | _, 1 => "blue"
  | _, 2 => "yellow"
  | _, _ => "red"
  end%nat.

Definition tailwind (colour : string) : string * string * string :=
  ("border-" ++ colour ++ "-500",
   "text-" ++ colour ++ "-700",
   "dark:text-" ++ colour ++ "-400").

(** ** Figures for every band

    For each metric and each band position, a pair (first operand,
    denominator) of positive figures whose ratio falls in that band. *)
Definition sample_figures (m : Metric) (k : nat) : Q * Q :=
  let pick (a0 a1 a2 a3 d : Q) :=
    (match k with 0 => a0 | 1 => a1 | 2 => a2 | _ => a3 end%nat, d) in
  match m with
  | PSR => pick 5 15 30 60 10
  | CurrentRatio => pick 250 170 120 50 100
  | EquityRatio => pick 60 45 30 10 100
  | CapExRatio => pick 20 12 8 5 10
  | RevenueGrowth => pick 160 130 110 50 100
  | ROE => pick 20 12 7 1 100
  | ROA => pick 12 7 3 1 100
  | OperatingMargin => pick 25 15 7 1 100
  | PER => pick 50 150 250 400 10
  | PBR => pick 5 15 25 40 10
  | DividendYield => pick 50 30 15 5 1000
  end%Q.

(** [reaches m k]: the sample figures of band [k] are positive and
    finite, the computation returns, and the ratio is classified in band
    [k]. *)
Definition reaches (m : Metric) (k : nat) : bool :=
  let a := f64 (fst (sample_figures m k)) in
  let d := f64 (snd (sample_figures m k)) in
  isFinite a && SFltb (f64 0) a && isFinite d && SFltb (f64 0) d
  && match calculate m a d with
     | Returns r => Nat.eqb (judgmentRank m r) k
     | Throws _ => false
     end.

(** * Properties *)

Local Open Scope num_scope.

(** ** The order of binary64

    [SFcompare] answers [None] exactly when a NaN is involved; on the
    other values it is a total preorder in which the two zeros are
    equal. *)

Ltac split_compare :=
  repeat match goal with
  | H : context [Pos.compare_cont Eq ?a ?b] |- _ =>
      change (Pos.compare_cont Eq a b) with (a ?= b)%positive in H
  | |- context [Pos.compare_cont Eq ?a ?b] =>
      change (Pos.compare_cont Eq a b) with (a ?= b)%positive
  end;
  repeat match goal with
  | H : context [(?a ?= ?b)%Z] |- _ => destruct (Z.compare_spec a b); try lia
  | |- context [(?a ?= ?b)%Z] => destruct (Z.compare_spec a b); try lia
  | H : context [(?a ?= ?b)%positive] |- _ =>
      destruct (Pos.compare_spec a b); try lia
  | |- context [(?a ?= ?b)%positive] =>
      destruct (Pos.compare_spec a b); try lia
  end.

Ltac sf_order :=
  unfold number in *;
  change (@leb spec_float binary64) with SFleb in *;
  change (@ltb spec_float binary64) with SFltb in *;
  unfold SFleb, SFltb;
  repeat match goal with x : spec_float |- _ => destruct x as [[]|[]| |[] ? ?] end;
  cbn; try discriminate; try reflexivity; try (intros; discriminate);
  intros; split_compare; cbn in *; try discriminate; try reflexivity; try lia.

Section Order.

Implicit Types x y z : number.

Lemma num_leb_trans x y z :
  (x <=? y) = true -> (y <=? z) = true -> (x <=? z) = true.
Proof. sf_order. Qed.

Lemma num_leb_ltb_trans x y z :
  (x <=? y) = true -> (y <? z) = true -> (x <? z) = true.
Proof. sf_order. Qed.

Lemma num_ltb_leb_trans x y z :
  (x <? y) = true -> (y <=? z) = true -> (x <? z) = true.
Proof. sf_order. Qed.

Lemma num_ltb_leb x y : (x <? y) = true -> (x <=? y) = true.
Proof. sf_order. Qed.

Lemma num_ltb_not_leb x y : (x <? y) = true -> (y <=? x) = false.
Proof. sf_order. Qed.

Lemma num_leb_not_ltb x y : (x <=? y) = true -> (y <? x) = false.
Proof. sf_order. Qed.

Lemma num_leb_refl x : isNaN x = false -> (x <=? x) = true.
Proof. sf_order. Qed.

(** Without NaN the order is total. *)
Lemma num_ltb_false_leb x y :
  isNaN x = false -> isNaN y = false -> (x <? y) = false -> (y <=? x) = true.
Proof. sf_order. Qed.

Lemma num_leb_false_ltb x y :
  isNaN x = false -> isNaN y = false -> (x <=? y) = false -> (y <? x) = true.
Proof. sf_order. Qed.

Lemma num_leb_not_nan x y :
  (x <=? y) = true -> isNaN x = false /\ isNaN y = false.
Proof. sf_order; split; reflexivity. Qed.

End Order.

(** ** Literals and sign classes *)

Lemma lit_0 : f64 0 = S754_zero false.
Proof. reflexivity. Qed.

Lemma lit_100 : f64 100 = S754_finite false 7036874417766400 (-46).
Proof. reflexivity. Qed.

(** [d <= 0] holds exactly for the two zeros and the negative values. *)
Lemma leb_zero_sign (d : number) :
  (d <=? f64 0) = is_zero d || is_negative d.
Proof. rewrite lit_0. destruct d as [[]|[]| |[] m e]; reflexivity. Qed.

(** [0 < d] holds exactly for the positive values, [+Infinity] included. *)
Lemma ltb_zero_sign (d : number) :
  (f64 0 <? d) = is_positive d.
Proof. rewrite lit_0. destruct d as [[]|[]| |[] m e]; reflexivity. Qed.

Lemma sign_classes (d : number) :
  isNaN d = false ->
  is_positive d = negb (is_zero d || is_negative d).
Proof. destruct d as [[]|[]| |[] m e]; cbn; intros; congruence. Qed.

(** The non-integer thresholds are the doubles nearest to 0.7 and 1.5,
    [1.0] is [1], and every threshold is a valid binary64 value. *)
Example literal_values :
  f64 0.7 = S754_finite false 6305039478318694 (-53)
  /\ f64 1.5 = S754_finite false 6755399441055744 (-52)
  /\ f64 1.0 = f64 1.
Proof. repeat split. Qed.

Example thresholds_are_doubles (m : Metric) :
  forallb (fun q => is_double (f64 q)) (thresholds m) = true.
Proof. destruct m; reflexivity. Qed.

(** The guard [d <= 0] is false for NaN: a NaN denominator is not
    rejected and the ratio is NaN. *)
Example nan_denominator (m : Metric) (a : number) :
  calculate m a NaN = Returns NaN.
Proof.
  destruct m; destruct a as [[]|[]| |[] ma ea]; reflexivity.
Qed.

Lemma exact_leb_zero (d : Qc) : (0 < d)%Qc -> @leb Qc exact d (lit 0%Q) = false.
Proof.
  intros Hd. cbn. change (Q2Qc 0) with 0%Qc.
  apply Qcgt_alt in Hd. now rewrite Hd.
Qed.


(** Every compute function has the shape
    [if (d <= 0) throw ...; return formula], whatever the arithmetic. *)
Section Shape.
Context {num : Type} `{Number num}.

Lemma calculate_unfold (m : Metric) (a d : num) :
  calculate m a d =
  if d <=? lit 0%Q
  then Throws match m with
              | PSR | OperatingMargin => "Revenue must be greater than 0"
              | CurrentRatio => "Current liabilities must be greater than 0"
              | EquityRatio | ROA => "Total assets must be greater than 0"
              | CapExRatio => "Depreciation must be greater than 0"
              | RevenueGrowth => "Past revenue must be greater than 0"
              | ROE | PBR => "Equity must be greater than 0"
              | PER => "Net income must be greater than 0"
              | DividendYield => "Stock price must be greater than 0"
              end
  else Returns (formula m a d).
Proof. destruct m; reflexivity. Qed.

End Shape.

(** ** C1: the precondition failure *)

(** C1. Each of the eleven compute functions throws if and only if its
    denominator (for revenue growth, the past revenue) is zero or
    negative; in that case nothing is returned, neither NaN nor Infinity
    nor any other ratio; and for a strictly positive denominator the call
    returns. *)
Theorem calculate_throws_iff (m : Metric) (a d : number) :
  (throws (calculate m a d) = true <-> is_zero d = true \/ is_negative d = true)
  /\ (is_zero d = true \/ is_negative d = true ->
      forall v, calculate m a d <> Returns v)
  /\ (is_positive d = true -> exists v, calculate m a d = Returns v).
Proof.
  rewrite calculate_unfold, leb_zero_sign.
  repeat split.
  - destruct (is_zero d || is_negative d) eqn:E; cbn; [|discriminate].
    intros _. now apply orb_true_iff.
  - intros Hd. apply orb_true_iff in Hd. now rewrite Hd.
  - intros Hd v. apply orb_true_iff in Hd. rewrite Hd. discriminate.
  - intros Hd. destruct d as [[]|[]| |[] md ed]; try discriminate; cbn; eauto.
Qed.

(** [calculatePSR(500000, 0)] and [calculateROE(10000, -5)] throw. *)
Lemma calculate_throws_iff_witness :
  throws (calculatePSR (f64 500000) (f64 0)) = true
  /\ throws (calculateROE (f64 10000) (f64 (-5))) = true.
Proof.
  split.
  - apply (proj1 (calculate_throws_iff PSR (f64 500000) (f64 0))).
    left. reflexivity.
  - apply (proj1 (calculate_throws_iff ROE (f64 10000) (f64 (-5)))).
    right. reflexivity.
Defined.

(** ** C2: the formulas *)

(** C2. For a strictly positive denominator each compute function returns
    the value of its table formula, evaluated in the arithmetic of
    [number]: [marketCap / revenue] for PSR,
    [(currentRevenue - pastRevenue) / pastRevenue * 100] for revenue
    growth, and so on (percentages multiplied by 100, plain ratios not). *)
Theorem calculate_formula (m : Metric) (a d : number) :
  (f64 0 <? d) = true ->
  calculate m a d = Returns (formula m a d).
Proof.
  intros Hd. rewrite calculate_unfold.
  now rewrite (num_ltb_not_leb _ _ Hd).
Qed.

(** The same holds over exact arithmetic. *)
Lemma calculate_formula_exact (m : Metric) (a d : Qc) :
  (0 < d)%Qc -> calculate m a d = Returns (formula m a d).
Proof.
  intros Hd. rewrite calculate_unfold. now rewrite exact_leb_zero.
Qed.

Lemma calculate_formula_witness :
  (f64 0 <? f64 80000) = true
  /\ calculate RevenueGrowth (f64 100000) (f64 80000)
     = Returns ((f64 100000 - f64 80000) / f64 80000 * f64 100).
Proof.
  split; [reflexivity|].
  apply (calculate_formula RevenueGrowth). reflexivity.
Defined.

(** ** C4: boundary values *)

(** C4. A ratio equal to a threshold lands on the side the tests dictate:
    PSR 1.0 is 'fair' and not 'undervalued', current ratio 200.0 is
    'excellent', PER 10.0 is 'fair' and not 'undervalued'. *)
Theorem boundary_values :
  PSRJudgment.level (getPSRJudgment (f64 1.0)) = PSRJudgment.fair
  /\ PSRJudgment.level (getPSRJudgment (f64 1.0)) <> PSRJudgment.undervalued
  /\ SafetyJudgment.level (getCurrentRatioJudgment (f64 200.0))
     = SafetyJudgment.excellent
  /\ ValuationJudgment.level (getPERJudgment (f64 10.0)) = ValuationJudgment.fair
  /\ ValuationJudgment.level (getPERJudgment (f64 10.0))
     <> ValuationJudgment.undervalued.
Proof. repeat split; try reflexivity; vm_compute; discriminate. Qed.

(** ** C5: two end-to-end runs *)

(** C5. [calculatePSR(500000, 100000)] returns exactly 5 and that ratio is
    classified 'very-high'; [calculateDividendYield(100, 2500)] returns
    exactly 4 and that ratio is classified 'undervalued', the high-yield
    band. *)
Theorem end_to_end_PSR_and_DividendYield :
  and_then (calculatePSR (f64 500000) (f64 100000))
           (fun psr => (psr, PSRJudgment.level (getPSRJudgment psr)))
  = Returns (f64 5.0, PSRJudgment.very_high)
  /\ and_then (calculateDividendYield (f64 100) (f64 2500))
              (fun y => (y, getDividendYieldJudgment y))
     = Returns (f64 4.0,
                {| ValuationJudgment.level := ValuationJudgment.undervalued;
                   ValuationJudgment.borderColor := "border-green-500";
                   ValuationJudgment.textColor := "text-green-700";
                   ValuationJudgment.darkTextColor := "dark:text-green-400";
                   ValuationJudgment.title := "高配当";
                   ValuationJudgment.description := "インカムゲイン重視の投資家向け" |}).
Proof. split; vm_compute; reflexivity. Qed.

(** ** C6: a zero dividend *)

(** C6. A zero annual dividend is a valid input: for every strictly
    positive stock price the yield is computed, it is that zero, and it is
    classified 'very-overvalued', the no-dividend band. *)
Theorem zero_dividend (annualDividend stockPrice : number) :
  is_zero annualDividend = true ->
  (f64 0 <? stockPrice) = true ->
  calculateDividendYield annualDividend stockPrice = Returns annualDividend
  /\ ValuationJudgment.level (getDividendYieldJudgment annualDividend)
     = ValuationJudgment.very_overvalued.
Proof.
  intros Hz Hp. split.
  - unfold calculateDividendYield.
    rewrite (num_ltb_not_leb _ _ Hp). f_equal.
    rewrite ltb_zero_sign in Hp. fold (f64 100). rewrite lit_100.
    destruct annualDividend as [s| | |]; try discriminate.
    destruct stockPrice as [| [] | | [] m e]; try discriminate;
      destruct s; reflexivity.
  - destruct annualDividend as [[]| | |]; try discriminate; reflexivity.
Qed.

Lemma zero_dividend_witness :
  calculateDividendYield (f64 0) (f64 2500) = Returns (f64 0)
  /\ ValuationJudgment.level (getDividendYieldJudgment (f64 0))
     = ValuationJudgment.very_overvalued.
Proof. apply zero_dividend; reflexivity. Defined.

(** ** C7: determinism and absence of side effects

    Every function of [financial.ts] is embedded above as a closed Rocq
    function of its parameters, because its body mentions nothing but its
    parameters and literals and assigns to nothing.  That two calls on
    equal arguments agree, and that no state outside the arguments is
    read or written, is therefore a property of the embedding itself and
    holds of every Rocq function alike; no theorem about [calculate] or
    [getJudgment] can express it, and none is stated. *)

(** ** The classifiers read as threshold tables *)

(** Each if-chain is the first-match evaluation of its table, and the
    rank of the level it returns is the index of the matching row: rows
    are tried from the most favourable level to the least favourable. *)
Section Refinement.
Context {num : Type} `{Number num}.

Lemma judgmentRank_first_match (m : Metric) (x : num) :
  judgmentRank m x = first_match (rule_of m) x (thresholds m).
Proof.
  destruct m; cbn -[lit]. 
  all: unfold getPSRJudgment, getCurrentRatioJudgment, getEquityRatioJudgment,
    getCapExRatioJudgment, getRevenueGrowthJudgment, getROEJudgment,
    getROAJudgment, getOperatingMarginJudgment, getPERJudgment,
    getPBRJudgment, getDividendYieldJudgment, passes.
  all: repeat match goal with
       | |- context [if ?c then _ else _] => destruct c
       end; reflexivity.
Qed.
End Refinement.

Section FirstMatch.
Implicit Types x y : number.

Lemma first_match_below_mono x y rows :
  (x <=? y) = true ->
  (first_match Below x rows <= first_match Below y rows)%nat.
Proof.
  intros Hxy. induction rows as [|q rest IH]; cbn [first_match passes length]; [lia|].
  destruct (y <? lit q) eqn:Hy.
  - rewrite (num_leb_ltb_trans _ _ _ Hxy Hy). lia.
  - destruct (x <? lit q); lia.
Qed.

Lemma first_match_at_least_mono x y rows :
  (x <=? y) = true ->
  (first_match AtLeast y rows <= first_match AtLeast x rows)%nat.
Proof.
  intros Hxy. induction rows as [|q rest IH]; cbn [first_match passes length]; [lia|].
  unfold geb.
  destruct (lit q <=? x) eqn:Hx.
  - rewrite (num_leb_trans _ _ _ Hx Hxy). lia.
  - destruct (lit q <=? y); lia.
Qed.

Lemma first_match_bound (t : Rule) x rows :
  (first_match t x rows <= length rows)%nat.
Proof.
  induction rows as [|q rest IH]; cbn [first_match passes length]; [lia|].
  destruct (passes t x q); lia.
Qed.

Lemma first_match_none (t : Rule) x rows :
  (forall q, In q rows -> passes t x q = false) ->
  first_match t x rows = length rows.
Proof.
  induction rows as [|q rest IH]; cbn [first_match passes length]; intros Hno; [reflexivity|].
  rewrite (Hno q (or_introl eq_refl)). f_equal. apply IH.
  intros q' Hq'. apply Hno. now right.
Qed.

End FirstMatch.

Section Bands.
Implicit Types x : number.

Lemma bands_below_lower rows : forall q b,
  isNaN (f64 q) = false ->
  ordered_from Below (Some q) rows = true ->
  In b (bands_below (Some q) rows) ->
  exists l, fst b = Some l /\ (f64 q <=? f64 l) = true.
Proof.
  induction rows as [|r rest IH]; intros q b Hq Hord Hin.
  - destruct Hin as [<-|[]]. exists q. split; [reflexivity|].
    now apply num_leb_refl.
  - cbn [ordered_from in_order] in Hord.
    apply andb_true_iff in Hord as [Hord Hrest].
    apply andb_true_iff in Hord as [Hr Hqr].
    apply negb_true_iff in Hr.
    destruct Hin as [<-|Hin].
    + exists q. split; [reflexivity|]. now apply num_leb_refl.
    + destruct (IH r b Hr Hrest Hin) as (l & Hl & Hrl).
      exists l. split; [exact Hl|].
      apply num_leb_trans with (f64 r); [|exact Hrl].
      now apply num_ltb_leb.
Qed.

Lemma bands_at_least_upper rows : forall q b,
  isNaN (f64 q) = false ->
  ordered_from AtLeast (Some q) rows = true ->
  In b (bands_at_least (Some q) rows) ->
  exists h, snd b = Some h /\ (f64 h <=? f64 q) = true.
Proof.
  induction rows as [|r rest IH]; intros q b Hq Hord Hin.
  - destruct Hin as [<-|[]]. exists q. split; [reflexivity|].
    now apply num_leb_refl.
  - cbn [ordered_from in_order] in Hord.
    apply andb_true_iff in Hord as [Hord Hrest].
    apply andb_true_iff in Hord as [Hr Hqr].
    apply negb_true_iff in Hr.
    destruct Hin as [<-|Hin].
    + exists q. split; [reflexivity|]. now apply num_leb_refl.
    + destruct (IH r b Hr Hrest Hin) as (h & Hh & Hhr).
      exists h. split; [exact Hh|].
      apply num_leb_trans with (f64 r); [exact Hhr|].
      now apply num_ltb_leb.
Qed.

Lemma in_band_below x rows : forall lo,
  isNaN x = false ->
  ordered_from Below lo rows = true ->
  (forall l, lo = Some l -> (f64 l <=? x) = true) ->
  forall i b, nth_error (bands_below lo rows) i = Some b ->
  (in_band x b = true <-> i = first_match Below x rows).
Proof.
  intros lo Hx. revert lo.
  induction rows as [|q rest IH]; intros lo Hord Hlo i b Hnth.
  - destruct i as [|i]; cbn in Hnth.
    + injection Hnth as <-. unfold in_band; cbn [fst snd first_match].
      destruct lo as [l|]; [rewrite (Hlo l eq_refl)|]; tauto.
    + destruct i; discriminate.
  - cbn [ordered_from in_order] in Hord.
    apply andb_true_iff in Hord as [Hord Hrest].
    apply andb_true_iff in Hord as [Hq Hloq].
    apply negb_true_iff in Hq.
    cbn [first_match passes].
    destruct i as [|i]; cbn [bands_below nth_error] in Hnth.
    + injection Hnth as <-. unfold in_band; cbn [fst snd].
      destruct (x <? f64 q).
      * destruct lo as [l|]; [rewrite (Hlo l eq_refl)|]; tauto.
      * rewrite andb_false_r. split; discriminate.
    + destruct (x <? f64 q) eqn:Hxq.
      * split; [|discriminate]. intros Hb. exfalso.
        destruct (bands_below_lower rest q b Hq Hrest (nth_error_In _ _ Hnth))
          as (l & Hl & Hql).
        unfold in_band in Hb. rewrite Hl in Hb.
        apply andb_true_iff in Hb as [Hb _].
        pose proof (num_leb_trans _ _ _ Hql Hb) as Hqx.
        rewrite (num_leb_not_ltb _ _ Hqx) in Hxq. discriminate.
      * rewrite (IH (Some q) Hrest) by
          (try exact Hnth; intros l [= <-]; now apply num_ltb_false_leb).
        split; [intros ->; reflexivity | intros [= ->]; reflexivity].
Qed.

Lemma in_band_at_least x rows : forall hi,
  isNaN x = false ->
  ordered_from AtLeast hi rows = true ->
  (forall h, hi = Some h -> (x <? f64 h) = true) ->
  forall i b, nth_error (bands_at_least hi rows) i = Some b ->
  (in_band x b = true <-> i = first_match AtLeast x rows).
Proof.
  intros hi Hx. revert hi.
  induction rows as [|q rest IH]; intros hi Hord Hhi i b Hnth.
  - destruct i as [|i]; cbn in Hnth.
    + injection Hnth as <-. unfold in_band; cbn [fst snd first_match].
      destruct hi as [h|]; [rewrite (Hhi h eq_refl)|]; tauto.
    + destruct i; discriminate.
  - cbn [ordered_from in_order] in Hord.
    apply andb_true_iff in Hord as [Hord Hrest].
    apply andb_true_iff in Hord as [Hq Hhiq].
    apply negb_true_iff in Hq.
    cbn [first_match passes]. unfold geb.
    destruct i as [|i]; cbn [bands_at_least nth_error] in Hnth.
    + injection Hnth as <-. unfold in_band; cbn [fst snd].
      destruct (f64 q <=? x).
      * destruct hi as [h|]; [rewrite (Hhi h eq_refl)|]; tauto.
      * split; discriminate.
    + destruct (f64 q <=? x) eqn:Hqx.
      * split; [|discriminate]. intros Hb. exfalso.
        destruct (bands_at_least_upper rest q b Hq Hrest (nth_error_In _ _ Hnth))
          as (h & Hh & Hhq).
        unfold in_band in Hb. rewrite Hh in Hb.
        apply andb_true_iff in Hb as [_ Hb].
        pose proof (num_ltb_leb_trans _ _ _ Hb Hhq) as Hxq.
        rewrite (num_ltb_not_leb _ _ Hxq) in Hqx. discriminate.
      * rewrite (IH (Some q) Hrest) by
          (try exact Hnth; intros h [= <-]; now apply num_leb_false_ltb).
        split; [intros ->; reflexivity | intros [= ->]; reflexivity].
Qed.

End Bands.

Example bands_PSR :
  bands PSR
  = [(None, Some 1); (Some 1, Some 2); (Some 2, Some 5); (Some 5, None)]%Q.
Proof. reflexivity. Qed.

Example bands_CurrentRatio :
  bands CurrentRatio
  = [(Some 200, None); (Some 150, Some 200); (Some 100, Some 150);
     (None, Some 100)]%Q.
Proof. reflexivity. Qed.

(** Infinite ratios fall in the outer bands; NaN fails every test and
    gets the last level although it lies in no band. *)
Example outer_ratios (m : Metric) :
  judgmentRank m Infinity
  = match rule_of m with Below => 3%nat | AtLeast => 0%nat end
  /\ judgmentRank m NaN = 3%nat
  /\ forallb (in_band NaN) (bands m) = false.
Proof. destruct m; repeat split. Qed.

Lemma isFinite_not_NaN (x : number) : isFinite x = true -> isNaN x = false.
Proof. destruct x; (reflexivity || discriminate). Qed.

Lemma thresholds_ordered (m : Metric) :
  ordered_from (rule_of m) None (thresholds m) = true.
Proof. destruct m; reflexivity. Qed.

Lemma bands_length (m : Metric) : length (bands m) = S (length (thresholds m)).
Proof. destruct m; reflexivity. Qed.

(** ** C3: the bands partition the ratios *)

(** C3. For each of the eleven classifiers and every ratio that is not NaN
    (negative, huge and infinite ones included): the level returned is the
    one of the first table row whose test passes, rows being tried from
    the most to the least favourable level; the table cuts the line into
    half-open bands [lo <= x < hi], consecutive ones sharing their bound
    and the outer two unbounded; the ratio lies in exactly one band, the
    one of the returned level; and a ratio passing no test gets the last
    level. *)
Theorem judgment_bands_partition (m : Metric) (x : number) :
  isNaN x = false ->
  judgmentRank m x = first_match (rule_of m) x (thresholds m)
  /\ (forall i b, nth_error (bands m) i = Some b ->
                 (in_band x b = true <-> i = judgmentRank m x))
  /\ (judgmentRank m x < length (bands m))%nat
  /\ contiguous (rule_of m) (bands m)
  /\ open_ended (rule_of m) (bands m)
  /\ ((forall q, In q (thresholds m) -> passes (rule_of m) x q = false) ->
      judgmentRank m x = length (thresholds m)).
Proof.
  intros Hx. rewrite judgmentRank_first_match.
  split; [reflexivity|]. split; [|split; [|split; [|split]]].
  - intros i b Hnth. pose proof (thresholds_ordered m) as Hord.
    unfold bands in Hnth. destruct (rule_of m).
    + apply in_band_below with (lo := None); auto; discriminate.
    + apply in_band_at_least with (hi := None); auto; discriminate.
  - rewrite bands_length.
    pose proof (first_match_bound (rule_of m) x (thresholds m)). lia.
  - destruct m; cbn; repeat split.
  - destruct m; cbn; repeat split.
  - apply first_match_none.
Qed.

(** PSR 3.2 lies in the third band, [2 <= x < 5], and in no other. *)
Lemma judgment_bands_partition_witness :
  judgmentRank PSR (f64 3.2) = 2%nat
  /\ in_band (f64 3.2) (Some 2%Q, Some 5%Q) = true
  /\ forall i b, nth_error (bands PSR) i = Some b ->
                 in_band (f64 3.2) b = true -> i = 2%nat.
Proof.
  split; [reflexivity|]. split; [reflexivity|].
  intros i b Hnth Hin.
  apply (proj1 (proj2 (judgment_bands_partition PSR (f64 3.2) eq_refl)) i b Hnth).
  exact Hin.
Defined.

(** ** C9: the level is monotone in the ratio *)

(** C9. For [x <= y]: the classifiers testing [ratio < t] (PSR, PER, PBR)
    give [x] a level that precedes or equals the level of [y]; the
    classifiers testing [ratio >= t] (the other eight) give [y] a level
    that precedes or equals the level of [x].  Levels are ordered as in
    their union type, most favourable first. *)
Theorem judgment_level_monotone (x y : number) :
  (x <=? y) = true ->
  let psr := fun v => PSRJudgment.rank (PSRJudgment.level v) in
  let safety := fun v => SafetyJudgment.rank (SafetyJudgment.level v) in
  let growth := fun v => GrowthJudgment.rank (GrowthJudgment.level v) in
  let profit :=
    fun v => ProfitabilityJudgment.rank (ProfitabilityJudgment.level v) in
  let valuation := fun v => ValuationJudgment.rank (ValuationJudgment.level v) in
  (psr (getPSRJudgment x) <= psr (getPSRJudgment y)
   /\ valuation (getPERJudgment x) <= valuation (getPERJudgment y)
   /\ valuation (getPBRJudgment x) <= valuation (getPBRJudgment y))%nat
  /\ (safety (getCurrentRatioJudgment y) <= safety (getCurrentRatioJudgment x)
      /\ safety (getEquityRatioJudgment y) <= safety (getEquityRatioJudgment x)
      /\ growth (getCapExRatioJudgment y) <= growth (getCapExRatioJudgment x)
      /\ growth (getRevenueGrowthJudgment y) <= growth (getRevenueGrowthJudgment x)
      /\ profit (getROEJudgment y) <= profit (getROEJudgment x)
      /\ profit (getROAJudgment y) <= profit (getROAJudgment x)
      /\ profit (getOperatingMarginJudgment y)
         <= profit (getOperatingMarginJudgment x)
      /\ valuation (getDividendYieldJudgment y)
         <= valuation (getDividendYieldJudgment x))%nat.
Proof.
  intros Hxy psr safety growth profit valuation.
  pose proof (fun m => judgmentRank_first_match m x) as Rx.
  pose proof (fun m => judgmentRank_first_match m y) as Ry.
  pose proof (fun rows => first_match_below_mono x y rows Hxy) as Up.
  pose proof (fun rows => first_match_at_least_mono x y rows Hxy) as Down.
  repeat split.
  - change (judgmentRank PSR x <= judgmentRank PSR y)%nat.
    rewrite Rx, Ry. apply Up.
  - change (judgmentRank PER x <= judgmentRank PER y)%nat.
    rewrite Rx, Ry. apply Up.
  - change (judgmentRank PBR x <= judgmentRank PBR y)%nat.
    rewrite Rx, Ry. apply Up.
  - change (judgmentRank CurrentRatio y <= judgmentRank CurrentRatio x)%nat.
    rewrite Rx, Ry. apply Down.
  - change (judgmentRank EquityRatio y <= judgmentRank EquityRatio x)%nat.
    rewrite Rx, Ry. apply Down.
  - change (judgmentRank CapExRatio y <= judgmentRank CapExRatio x)%nat.
    rewrite Rx, Ry. apply Down.
  - change (judgmentRank RevenueGrowth y <= judgmentRank RevenueGrowth x)%nat.
    rewrite Rx, Ry. apply Down.
  - change (judgmentRank ROE y <= judgmentRank ROE x)%nat.
    rewrite Rx, Ry. apply Down.
  - change (judgmentRank ROA y <= judgmentRank ROA x)%nat.
    rewrite Rx, Ry. apply Down.
  - change (judgmentRank OperatingMargin y <= judgmentRank OperatingMargin x)%nat.
    rewrite Rx, Ry. apply Down.
  - change (judgmentRank DividendYield y <= judgmentRank DividendYield x)%nat.
    rewrite Rx, Ry. apply Down.
Qed.

Lemma judgment_level_monotone_witness :
  (ValuationJudgment.rank (ValuationJudgment.level (getPERJudgment (f64 9.5)))
   <= ValuationJudgment.rank (ValuationJudgment.level (getPERJudgment (f64 25))))%nat
  /\ (ProfitabilityJudgment.rank (ProfitabilityJudgment.level (getROEJudgment (f64 25)))
      <= ProfitabilityJudgment.rank
           (ProfitabilityJudgment.level (getROEJudgment (f64 9.5))))%nat.
Proof.
  pose proof (judgment_level_monotone (f64 9.5) (f64 25) eq_refl) as M.
  cbv zeta in M. split.
  - exact (proj1 (proj2 (proj1 M))).
  - exact (proj1 (proj2 (proj2 (proj2 (proj2 (proj2 M)))))).
Defined.

(** ** C8: the numerator is never checked *)



(** ** C10: scale invariance, over exact arithmetic *)

(** C10. Over exact rational arithmetic, multiplying both operands by the
    same [k > 0] changes the result of none of the eleven compute
    functions, for every denominator [d > 0]. *)
Theorem calculate_scale_invariant (m : Metric) (k a d : Qc) :
  (0 < k)%Qc -> (0 < d)%Qc ->
  calculate m (k * a)%Qc (k * d)%Qc = calculate m a d.
Proof.
  intros Hk Hd.
  assert (Hkd : (0 < k * d)%Qc).
  { rewrite <- (Qcmult_0_l d). now apply Qcmult_lt_compat_r. }
  assert (k <> 0%Qc /\ d <> 0%Qc) as [Hk0 Hd0].
  { split; apply not_eq_sym; now apply Qclt_not_eq. }
  rewrite !calculate_unfold, !exact_leb_zero by assumption.
  f_equal. destruct m; cbn [formula div mul sub exact]; field; auto.
Qed.

Lemma calculate_scale_invariant_witness :
  calculate PSR (Q2Qc 1000 * Q2Qc 500)%Qc (Q2Qc 1000 * Q2Qc 100)%Qc
  = calculate PSR (Q2Qc 500) (Q2Qc 100).
Proof. apply calculate_scale_invariant; reflexivity. Defined.

(** On binary64 the same scaling can overflow: with [k = 2^1023] both
    [k * 4] and [k * 2] are [Infinity] and their quotient is NaN, while
    [4 / 2] is [2]. *)
Example scale_overflow_binary64 :
  let k : number := S754_finite false 4503599627370496 971 in
  is_double k = true
  /\ calculatePSR (k * f64 4) (k * f64 2) = Returns NaN
  /\ calculatePSR (f64 4) (f64 2) = Returns (f64 2).
Proof. repeat split. Qed.

(** * Beyond the engine: callers, display and input *)

(** ** Binary64 facts used below *)

Section SafeIntegers.
Local Open Scope Z_scope.

Lemma digits2_pos_size (p : positive) : digits2_pos p = Pos.size p.
Proof. induction p; cbn; congruence. Qed.

Lemma digits2_pos_iter_xO (k p : positive) :
  digits2_pos (Pos.iter xO p k) = (digits2_pos p + k)%positive.
Proof.
  revert p. induction k using Pos.peano_ind; intros p.
  - cbn. lia.
  - rewrite Pos.iter_succ. cbn. rewrite IHk. lia.
Qed.

Lemma iter_xO_pow2 (k p : positive) :
  Zpos (Pos.iter xO p k) = Zpos p * 2 ^ Zpos k.
Proof.
  induction k using Pos.peano_ind.
  - cbn. lia.
  - rewrite Pos.iter_succ, Pos2Z.inj_succ, Z.pow_succ_r by lia.
    rewrite Pos2Z.inj_xO, IHk. lia.
Qed.

(** A mantissa of exactly 53 bits with an exponent in range is left
    alone by rounding. *)
Lemma binary_round_aux_canonical (s : bool) (m : positive) (e : Z) :
  digits2_pos m = 53%positive -> -1074 <= e <= 971 ->
  binary_round_aux prec emax s (Zpos m) e loc_Exact = S754_finite s m e.
Proof.
  intros Hd He. unfold binary_round_aux.
  assert (Hs : shr_fexp prec emax (Zpos m) e loc_Exact
               = ({| shr_m := Zpos m; shr_r := false; shr_s := false |}, e)).
  { unfold shr_fexp, shr, fexp, emin, prec, emax. cbn [Zdigits2 shr_record_of_loc].
    rewrite Hd.
    replace (Z.max (53 + e - 53) (3 - 1024 - 53) - e) with 0 by lia.
    reflexivity. }
  rewrite Hs. cbn [shr_m loc_of_shr_record round_nearest_even].
  rewrite Hs. cbn [shr_m].
  unfold emax, prec.
  destruct (Z.leb_spec e (1024 - 53)); [reflexivity|lia].
Qed.

Lemma number_of_Z_exact (p : positive) :
  (Zpos p < 2 ^ 53)%Z ->
  exists m e, number_of_Z (Zpos p) = S754_finite false m e
              /\ Z.shiftl (Zpos m) e = Zpos p.
Proof.
  intros Hn.
  unfold number_of_Z, binary_normalize, binary_round.
  assert (Hsize : (Zpos (digits2_pos p) <= 53)%Z).
  { rewrite digits2_pos_size.
    pose proof (Pos.size_le p) as Hle.
    destruct (Z.le_gt_cases (Zpos (Pos.size p)) 53) as [|Hgt]; [assumption|].
    exfalso.
    assert (2 ^ 54 <= Zpos (2 ^ Pos.size p))%Z.
    { rewrite Pos2Z.inj_pow. apply Z.pow_le_mono_r; lia. }
    lia. }
  unfold shl_align, fexp, emin, prec, emax.
  replace (Z.max (Zpos (digits2_pos p) + 0 - 53) (3 - 1024 - 53) - 0)%Z
    with (Zpos (digits2_pos p) - 53)%Z by lia.
  replace (Z.max (Zpos (digits2_pos p) + 0 - 53) (3 - 1024 - 53))%Z
    with (Zpos (digits2_pos p) - 53)%Z by lia.
  destruct (Zpos (digits2_pos p) - 53)%Z as [|k|k] eqn:Hk; [|lia|].
  - change (binary_round_aux 53 1024) with (binary_round_aux prec emax).
    rewrite binary_round_aux_canonical by lia.
    exists p, 0%Z. split; reflexivity.
  - change (binary_round_aux 53 1024) with (binary_round_aux prec emax).
    rewrite binary_round_aux_canonical.
    + eexists _, _. split; [reflexivity|].
      rewrite iter_xO_pow2, Z.shiftl_div_pow2 by lia.
      change (- Zneg k)%Z with (Zpos k). apply Z.div_mul. lia.
    + rewrite digits2_pos_iter_xO. lia.
    + lia.
Qed.


End SafeIntegers.

Lemma div_self (s : bool) (m : positive) (e : Z) :
  S754_finite s m e / S754_finite s m e = f64 1.
Proof.
  cbn [div binary64 SFdiv]. unfold SFdiv_core_binary.
  cbn [Zdigits2].
  replace (Z.pos (digits2_pos m) + e - (Z.pos (digits2_pos m) + e))%Z
    with 0%Z by lia.
  rewrite Z.sub_diag.
  change (Z.min (fexp prec emax 0) 0) with (-53)%Z.
  change (0 - -53)%Z with 53%Z. cbv beta iota.
  replace (Z.div_eucl (Z.shiftl (Z.pos m) 53) (Z.pos m))
    with (2 ^ 53, 0)%Z.
  2:{ symmetry.
      pose proof (Z.div_eucl_eq (Z.shiftl (Z.pos m) 53) (Z.pos m) ltac:(lia)) as E.
      pose proof (Z.mod_pos_bound (Z.shiftl (Z.pos m) 53) (Z.pos m) ltac:(lia)) as B.
      unfold Z.modulo in B.
      assert (D : (Z.shiftl (Z.pos m) 53 / Z.pos m = 2 ^ 53)%Z).
      { rewrite Z.shiftl_mul_pow2 by lia. rewrite Z.mul_comm. apply Z.div_mul. lia. }
      unfold Z.div in D.
      destruct (Z.div_eucl (Z.shiftl (Z.pos m) 53) (Z.pos m)) as [q r].
      subst q. f_equal. rewrite Z.shiftl_mul_pow2 in E by lia. lia. }
  replace (new_location (Z.pos m) 0) with loc_Exact
    by (unfold new_location; destruct (Z.even (Z.pos m)); reflexivity).
  rewrite xorb_nilpotent. reflexivity.
Qed.


Lemma shr_1_nonneg mrs : (0 <= shr_m mrs)%Z -> (0 <= shr_m (shr_1 mrs))%Z.
Proof.
  destruct mrs as [m r s]. cbn [shr_m]. intros Hm.
  destruct m as [|[p|p|]|p]; cbn; lia.
Qed.

Lemma iter_pos_invariant {A} (f : A -> A) (Inv : A -> Prop) :
  (forall x, Inv x -> Inv (f x)) ->
  forall p x, Inv x -> Inv (iter_pos f p x).
Proof.
  intros Hf. induction p as [p IH|p IH|]; intros x Hx; cbn; auto.
Qed.

Lemma shr_fexp_nonneg m e l :
  (0 <= m)%Z -> (0 <= shr_m (fst (shr_fexp prec emax m e l)))%Z.
Proof.
  intros Hm. unfold shr_fexp, shr.
  assert (H0 : (0 <= shr_m (shr_record_of_loc m l))%Z).
  { destruct l as [|[]]; exact Hm. }
  destruct (fexp prec emax (Zdigits2 m + e) - e)%Z; cbn [fst]; try exact H0.
  apply iter_pos_invariant; [exact shr_1_nonneg|exact H0].
Qed.

Lemma binary_round_aux_has_sign sx mx ex lx :
  (0 <= mx)%Z -> has_sign sx (binary_round_aux prec emax sx mx ex lx).
Proof.
  intros Hm. unfold binary_round_aux.
  pose proof (shr_fexp_nonneg mx ex lx Hm) as H1.
  destruct (shr_fexp prec emax mx ex lx) as [mrs' e']. cbn [fst] in H1.
  set (m2 := round_nearest_even (shr_m mrs') (loc_of_shr_record mrs')).
  assert (H2 : (0 <= m2)%Z).
  { unfold m2, round_nearest_even.
    destruct (loc_of_shr_record mrs') as [|[]]; try lia.
    destruct (Z.even (shr_m mrs')); lia. }
  pose proof (shr_fexp_nonneg m2 e' loc_Exact H2) as H3.
  destruct (shr_fexp prec emax m2 e' loc_Exact) as [mrs'' e'']. cbn [fst] in H3.
  destruct (shr_m mrs''); [reflexivity| |lia].
  destruct (Z.leb e'' (emax - prec)); reflexivity.
Qed.

Lemma SFdiv_has_sign sx mx ex sy my ey :
  has_sign (xorb sx sy)
    (SFdiv prec emax (S754_finite sx mx ex) (S754_finite sy my ey)).
Proof.
  cbn [SFdiv]. unfold SFdiv_core_binary.
  set (m' := match _ with Z.pos _ => _ | Z0 => _ | Z.neg _ => _ end).
  assert (Hm' : (0 <= m')%Z).
  { unfold m'. destruct (_ - _ - _)%Z; try lia.
    rewrite Z.shiftl_mul_pow2 by lia. lia. }
  pose proof (Z.div_pos m' (Z.pos my) Hm' eq_refl) as Hq.
  unfold Z.div in Hq.
  destruct (Z.div_eucl m' (Z.pos my)) as [q r].
  now apply binary_round_aux_has_sign.
Qed.

Lemma SFmul_has_sign sx mx ex sy my ey :
  has_sign (xorb sx sy)
    (SFmul prec emax (S754_finite sx mx ex) (S754_finite sy my ey)).
Proof. cbn [SFmul]. now apply binary_round_aux_has_sign. Qed.

Lemma binary_normalize_not_nan m e s :
  isNaN (binary_normalize prec emax m e s) = false.
Proof.
  destruct m as [|p|p]; cbn [binary_normalize]; [reflexivity| |].
  all: unfold binary_round;
    destruct (shl_align _ _ _) as [mz ez];
    match goal with |- context [binary_round_aux _ _ ?sx ?mx ?ex ?lx] =>
      pose proof (binary_round_aux_has_sign sx mx ex lx) as Hs;
      destruct (binary_round_aux prec emax sx mx ex lx)
    end; try reflexivity; exfalso; apply Hs; lia.
Qed.

(** Division by a positive finite number and multiplication by a
    positive finite number keep a non-NaN value non-NaN and keep its
    sign. *)
Lemma signed_div (s : bool) (x d : number) :
  has_sign s x -> isFinite d = true -> (f64 0 <? d) = true -> has_sign s (x / d).
Proof.
  rewrite ltb_zero_sign.
  destruct d as [[]|[]| |[] md ed]; try discriminate. intros Hx _ _.
  destruct x as [sx|sx| |sx mx ex]; cbn in Hx |- *; try contradiction;
    try (now rewrite xorb_false_r).
  subst sx. pose proof (SFdiv_has_sign s mx ex false md ed) as Hs.
  rewrite xorb_false_r in Hs. exact Hs.
Qed.

Lemma signed_mul_100 (s : bool) (x : number) :
  has_sign s x -> has_sign s (x * f64 100).
Proof.
  rewrite lit_100.
  destruct x as [sx|sx| |sx mx ex]; cbn; try contradiction;
    try (now rewrite xorb_false_r).
  intros <-.
  pose proof (SFmul_has_sign sx mx ex false 7036874417766400 (-46)) as Hs.
  rewrite xorb_false_r in Hs. exact Hs.
Qed.

Lemma not_nan_signed (x : number) :
  isNaN x = false -> exists s, has_sign s x.
Proof. destruct x as [s|s| |s m e]; try discriminate; intros _; now exists s. Qed.

Lemma signed_not_nan (s : bool) (x : number) : has_sign s x -> isNaN x = false.
Proof. destruct x; cbn; intros; (reflexivity || contradiction). Qed.

Lemma sub_not_nan (a d : number) :
  isNaN a = false -> isFinite d = true -> isNaN (a - d) = false.
Proof.
  destruct d as [sd| | |sd md ed]; try discriminate;
    destruct a as [sa|sa| |sa ma ea]; try discriminate; intros _ _;
    try reflexivity.
  - destruct sa, sd; reflexivity.
  - cbn [sub binary64 SFsub]. apply binary_normalize_not_nan.
Qed.

(** Zero stays zero. *)
Lemma zero_div (x d : number) :
  is_zero x = true -> isFinite d = true -> (f64 0 <? d) = true ->
  is_zero (x / d) = true.
Proof.
  rewrite ltb_zero_sign.
  destruct d as [[]|[]| |[] md ed]; try discriminate;
    destruct x; try discriminate; reflexivity.
Qed.

Lemma zero_mul_100 (x : number) : is_zero x = true -> is_zero (x * f64 100) = true.
Proof. rewrite lit_100. destruct x; try discriminate; reflexivity. Qed.

Lemma not_negative_cases (x : number) :
  (x <? f64 0) = false -> isNaN x = false -> is_zero x = true \/ has_sign false x.
Proof.
  rewrite lit_0. destruct x as [[]|[]| |[] m e]; cbn; try discriminate; auto.
Qed.

Lemma cases_not_negative (x : number) :
  is_zero x = true \/ has_sign false x -> (x <? f64 0) = false.
Proof.
  rewrite lit_0. destruct x as [[]|[]| |[] m e]; cbn; intros [|]; 
    try discriminate; try contradiction; reflexivity.
Qed.

Lemma formula_not_nan (m : Metric) (a d : number) :
  isNaN a = false -> isFinite d = true -> (f64 0 <? d) = true ->
  isNaN (formula m a d) = false.
Proof.
  intros Ha Hd Hp.
  assert (Hq : forall x, isNaN x = false -> isNaN (x / d) = false).
  { intros x Hx. destruct (not_nan_signed x Hx) as [s Hs].
    apply (signed_not_nan s). now apply signed_div. }
  assert (Hc : forall x, isNaN x = false -> isNaN (x * f64 100) = false).
  { intros x Hx. destruct (not_nan_signed x Hx) as [s Hs].
    apply (signed_not_nan s). now apply signed_mul_100. }
  destruct m; cbn [formula]; auto using sub_not_nan.
Qed.

Lemma formula_not_negative (m : Metric) (a d : number) :
  m <> RevenueGrowth ->
  isNaN a = false -> (a <? f64 0) = false ->
  isFinite d = true -> (f64 0 <? d) = true ->
  (formula m a d <? f64 0) = false.
Proof.
  intros Hm Ha Hn Hd Hp. apply cases_not_negative.
  destruct (not_negative_cases a Hn Ha) as [Hz|Hs].
  - left. destruct m; cbn [formula]; try contradiction;
      auto using zero_div, zero_mul_100.
  - right. destruct m; cbn [formula]; try contradiction;
      auto using signed_div, signed_mul_100.
Qed.

(** ** The calculator effects *)

Section EffectShape.
Context {num : Type} `{Number num}.
Variable toNumber : string -> num.

Lemma autoCalculate_unfold (m : Metric) (a d : string) :
  autoCalculate toNumber m a d =
  if numerator_accepted m (toNumber a) && (toNumber d >? lit 0%Q)
  then and_then (calculate m (toNumber a) (toNumber d)) Some
  else Returns None.
Proof.
  destruct m; try reflexivity.
  cbn [autoCalculate numerator_accepted calculate]. unfold autoCalculatePSR.
  now rewrite andb_comm.
Qed.

End EffectShape.

Lemma geb_zero_sign (x : number) : (x >=? f64 0) = is_zero x || is_positive x.
Proof. rewrite lit_0. destruct x as [[]|[]| |[] m e]; reflexivity. Qed.

Lemma gtb_zero_sign (x : number) : (x >? f64 0) = is_positive x.
Proof. apply ltb_zero_sign. Qed.

Section Effects.
Variable toNumber : string -> number.

Lemma autoCalculate_value (m : Metric) (a d : string) :
  autoCalculate toNumber m a d =
  Returns (if numerator_accepted m (toNumber a) && (toNumber d >? f64 0)
           then Some (formula m (toNumber a) (toNumber d))
           else None).
Proof.
  rewrite autoCalculate_unfold.
  destruct (numerator_accepted m (toNumber a)); cbn [andb]; [|reflexivity].
  destruct (toNumber d >? f64 0) eqn:Hd; [|reflexivity].
  rewrite calculate_unfold, (num_ltb_not_leb _ _ Hd). reflexivity.
Qed.

Lemma numerator_accepted_sign (m : Metric) (x : number) :
  numerator_accepted m x = true
  <-> is_positive x = true \/ (m = DividendYield /\ is_zero x = true).
Proof.
  destruct m; cbn [numerator_accepted]; rewrite ?gtb_zero_sign, ?geb_zero_sign;
    try (split; [now left | intros [|[? _]]; [assumption|discriminate]]).
  rewrite orb_true_iff. split; [intros [|]; auto | intros [|[_ ?]]; auto].
Qed.

(** X1. No calculator effect lets an exception of the engine escape,
    whatever the two fields hold: the tests on the converted fields
    establish the engine's precondition.  When an effect sets a ratio, it
    is the one the engine returns for the two converted fields. *)
Theorem effects_never_throw (m : Metric) (a d : string) :
  throws (autoCalculate toNumber m a d) = false
  /\ forall r, autoCalculate toNumber m a d = Returns (Some r) ->
               calculate m (toNumber a) (toNumber d) = Returns r.
Proof.
  rewrite autoCalculate_value. split; [reflexivity|].
  intros r. destruct (numerator_accepted m (toNumber a)); [|discriminate].
  cbn [andb]. destruct (toNumber d >? f64 0) eqn:Hd; [|discriminate].
  intros [= <-]. rewrite calculate_unfold, (num_ltb_not_leb _ _ Hd). reflexivity.
Qed.

(** X2. An effect sets a ratio (rather than [null]) exactly when the
    denominator field converts to a positive number and the other field
    converts to a positive number, or, for the dividend yield only, to a
    zero.  So text that is not a number (NaN), zeros and negative figures
    show no result, although the engine accepts negative numerators. *)
Theorem effects_show_iff (m : Metric) (a d : string) :
  (exists r, autoCalculate toNumber m a d = Returns (Some r))
  <-> is_positive (toNumber d) = true
      /\ (is_positive (toNumber a) = true
          \/ (m = DividendYield /\ is_zero (toNumber a) = true)).
Proof.
  rewrite autoCalculate_value, gtb_zero_sign, <- numerator_accepted_sign.
  destruct (numerator_accepted m (toNumber a)), (is_positive (toNumber d));
    cbn [andb]; (split; [intros [r Hr]; try discriminate; now split
                        |intros [H1 H2]; try discriminate; eauto]).
Qed.

(** X3. A ratio set by an effect whose denominator field is finite is
    never NaN, and for every metric except revenue growth it is never
    negative. *)
Theorem shown_ratio_is_a_number (m : Metric) (a d : string) (r : number) :
  autoCalculate toNumber m a d = Returns (Some r) ->
  isFinite (toNumber d) = true ->
  isNaN r = false /\ (m <> RevenueGrowth -> (r <? f64 0) = false).
Proof.
  rewrite autoCalculate_value. intros Hr Hfin.
  destruct (numerator_accepted m (toNumber a)) eqn:Ha; [|discriminate].
  cbn [andb] in Hr. destruct (toNumber d >? f64 0) eqn:Hd; [|discriminate].
  injection Hr as <-.
  apply numerator_accepted_sign in Ha.
  assert (Hnan : isNaN (toNumber a) = false).
  { destruct Ha as [Ha|[_ Ha]]; destruct (toNumber a); (reflexivity || discriminate). }
  assert (Hneg : (toNumber a <? f64 0) = false).
  { rewrite lit_0.
    destruct Ha as [Ha|[_ Ha]]; destruct (toNumber a) as [[]|[]| |[] ? ?];
      (reflexivity || discriminate). }
  split.
  - now apply formula_not_nan.
  - intros Hm. now apply formula_not_negative.
Qed.

(** [Number("")] is [0]. *)
Hypothesis toNumber_empty : toNumber "" = f64 0.

(** X4. With [Number("") = 0]: an empty denominator field shows no result
    for any metric, and an empty first field shows none either, except
    for the dividend yield, where an empty dividend field and a positive
    price show a yield of 0 classified 'very-overvalued'. *)
Theorem empty_fields (m : Metric) (a d : string) :
  autoCalculate toNumber m a "" = Returns None
  /\ (m <> DividendYield -> autoCalculate toNumber m "" d = Returns None)
  /\ ((f64 0 <? toNumber d) = true ->
      and_then (autoCalculateDividendYield toNumber "" d)
               (option_map (fun y =>
                  (y, ValuationJudgment.level (getDividendYieldJudgment y))))
      = Returns (Some (f64 0, ValuationJudgment.very_overvalued))).
Proof.
  split; [|split].
  - rewrite autoCalculate_value, toNumber_empty.
    now rewrite andb_false_r.
  - intros Hm. rewrite autoCalculate_value, toNumber_empty.
    destruct m; try reflexivity. contradiction.
  - intros Hd.
    change (autoCalculateDividendYield toNumber "" d)
      with (autoCalculate toNumber DividendYield "" d).
    rewrite autoCalculate_value, toNumber_empty.
    change (toNumber d >? f64 0) with (f64 0 <? toNumber d). rewrite Hd.
    cbn [numerator_accepted andb and_then option_map formula].
    replace (f64 0 / toNumber d * f64 100) with (f64 0); [reflexivity|].
    rewrite ltb_zero_sign in Hd. rewrite lit_100.
    destruct (toNumber d) as [[]|[]| |[] md ed]; (discriminate || reflexivity).
Qed.

End Effects.

Lemma shown_ratio_is_a_number_witness :
  isNaN (f64 5) = false
  /\ (ROE <> RevenueGrowth -> (f64 5 <? f64 0) = false).
Proof.
  refine (shown_ratio_is_a_number Number_of_digits ROE "10000" "200000"
            (f64 5) _ _); vm_compute; reflexivity.
Defined.

Lemma empty_fields_witness :
  let toNumber := fun s => if falsy s then f64 0 else Number_of_digits s in
  autoCalculate toNumber ROE "10000" "" = Returns None
  /\ (ROE <> DividendYield -> autoCalculate toNumber ROE "" "2500" = Returns None)
  /\ ((f64 0 <? toNumber "2500") = true ->
      and_then (autoCalculateDividendYield toNumber "" "2500")
               (option_map (fun y =>
                  (y, ValuationJudgment.level (getDividendYieldJudgment y))))
      = Returns (Some (f64 0, ValuationJudgment.very_overvalued))).
Proof.
  intros toNumber.
  exact (empty_fields toNumber eq_refl ROE "10000" "2500").
Defined.

(** ** ResultDisplay: the bars *)

Lemma finite_positive_shape (x : number) :
  isFinite x = true -> (f64 0 <? x) = true ->
  exists m e, x = S754_finite false m e.
Proof.
  rewrite ltb_zero_sign.
  destruct x as [[]|[]| |[] m e]; try discriminate. eauto.
Qed.

Lemma Math_max_finite_positive (ma mb : positive) (ea eb : Z) :
  let a := S754_finite false ma ea in
  let b := S754_finite false mb eb in
  ((b <=? a) = true -> Math_max a b = a)
  /\ ((a <=? b) = true -> Math_max a b = b).
Proof.
  intros a b. unfold Math_max, a, b.
  cbn [isNaN orb fold_left max_step SFltb SFcompare].
  cbn [leb binary64]. unfold SFleb, SFltb. cbn [SFcompare].
  change (Pos.compare_cont Eq ma mb) with (ma ?= mb)%positive.
  change (Pos.compare_cont Eq mb ma) with (mb ?= ma)%positive.
  rewrite (Z.compare_antisym ea eb), (Pos.compare_antisym ma mb).
  destruct (Z.compare_spec ea eb) as [He|He|He]; cbn [CompOpp];
    try (split; (discriminate || reflexivity)).
  destruct (Pos.compare_spec ma mb) as [Hm|Hm|Hm]; cbn [CompOpp];
    try (split; (discriminate || reflexivity)).
  subst. split; reflexivity.
Qed.

Section Bars.
Variable toNumber : string -> number.

(** X5. In the PSR result display, when both figures are positive and
    finite, the bar of the larger figure (of both, when they are equal) is
    exactly 100 wide, and neither width is NaN or negative. *)
Theorem larger_bar_is_full (marketCap revenue : string) :
  let marketCapNum := toNumber (replace_commas marketCap) in
  let revenueNum := toNumber (replace_commas revenue) in
  let widths := barWidths toNumber marketCap revenue in
  isFinite marketCapNum = true -> (f64 0 <? marketCapNum) = true ->
  isFinite revenueNum = true -> (f64 0 <? revenueNum) = true ->
  ((revenueNum <=? marketCapNum) = true -> fst widths = f64 100)
  /\ ((marketCapNum <=? revenueNum) = true -> snd widths = f64 100)
  /\ has_sign false (fst widths) /\ has_sign false (snd widths).
Proof.
  intros a b widths Hfa Hpa Hfb Hpb. unfold widths, barWidths.
  fold a b. cbn [fst snd].
  destruct (finite_positive_shape a Hfa Hpa) as (ma & ea & ->).
  destruct (finite_positive_shape b Hfb Hpb) as (mb & eb & ->).
  destruct (Math_max_finite_positive ma mb ea eb) as [Hge Hle].
  cbv zeta in Hge, Hle.
  split; [|split; [|split]].
  - intros H. rewrite (Hge H), div_self. reflexivity.
  - intros H. rewrite (Hle H), div_self. reflexivity.
  - apply signed_mul_100.
    destruct (SFleb (S754_finite false mb eb) (S754_finite false ma ea)) eqn:E.
    + rewrite (Hge E). apply (SFdiv_has_sign false ma ea false ma ea).
    + rewrite Hle by (apply num_ltb_leb; now apply num_leb_false_ltb).
      apply (SFdiv_has_sign false ma ea false mb eb).
  - apply signed_mul_100.
    destruct (SFleb (S754_finite false mb eb) (S754_finite false ma ea)) eqn:E.
    + rewrite (Hge E). apply (SFdiv_has_sign false mb eb false ma ea).
    + rewrite Hle by (apply num_ltb_leb; now apply num_leb_false_ltb).
      apply (SFdiv_has_sign false mb eb false mb eb).
Qed.

End Bars.

Lemma larger_bar_is_full_witness :
  fst (barWidths Number_of_digits "500,000" "100000") = f64 100.
Proof.
  refine (proj1 (larger_bar_is_full Number_of_digits "500,000" "100000"
                   _ _ _ _) _); vm_compute; reflexivity.
Defined.

(** ** InputField: display and raw value *)



Lemma is_digit_not_comma (c : ascii) : is_digit c = true -> not_comma c = true.
Proof.
  destruct c as [[] [] [] [] [] [] [] []]; cbn; (discriminate || reflexivity).
Qed.

Lemma all_chars_impl (P Q : ascii -> bool) (s : string) :
  (forall c, P c = true -> Q c = true) ->
  all_chars P s = true -> all_chars Q s = true.
Proof.
  intros HPQ. induction s as [|c rest IH]; cbn; [reflexivity|].
  intros H. apply andb_true_iff in H as [Hc Hr].
  now rewrite (HPQ c Hc), (IH Hr).
Qed.

Lemma replace_non_digits_digits (s : string) :
  all_chars is_digit (replace_non_digits s) = true.
Proof.
  induction s as [|c rest IH]; cbn; [reflexivity|].
  destruct (is_digit c) eqn:Hc; cbn; [now rewrite Hc|exact IH].
Qed.

Lemma replace_non_digits_id (s : string) :
  all_chars is_digit s = true -> replace_non_digits s = s.
Proof.
  induction s as [|c rest IH]; cbn; [reflexivity|].
  intros H. apply andb_true_iff in H as [Hc Hr]. now rewrite Hc, IH.
Qed.

Lemma replace_commas_id (s : string) :
  all_chars not_comma s = true -> replace_commas s = s.
Proof.
  induction s as [|c rest IH]; cbn; [reflexivity|].
  intros H. apply andb_true_iff in H as [Hc Hr].
  unfold not_comma in Hc. apply negb_true_iff in Hc. now rewrite Hc, IH.
Qed.

Lemma replace_commas_no_comma (s : string) :
  all_chars not_comma (replace_commas s) = true.
Proof.
  induction s as [|c rest IH]; cbn; [reflexivity|].
  destruct (Ascii.eqb c ",") eqn:Hc; cbn; [exact IH|].
  unfold not_comma at 1. now rewrite Hc.
Qed.

(** Deleting commas and deleting non-digits commute with each other in
    the only way that matters: commas are non-digits. *)
Lemma replace_non_digits_commas (s : string) :
  replace_non_digits (replace_commas s) = replace_non_digits s.
Proof.
  induction s as [|c rest IH]; cbn; [reflexivity|].
  destruct (Ascii.eqb c ",") eqn:Hc.
  - apply Ascii.eqb_eq in Hc. subst c. cbn. exact IH.
  - cbn. now rewrite IH.
Qed.

Lemma replace_commas_group (s : string) : forall n,
  all_chars not_comma s = true -> replace_commas (group_from n s) = s.
Proof.
  induction s as [|c rest IH]; intros n H;
    cbn [group_from replace_commas all_chars] in *; [reflexivity|].
  apply andb_true_iff in H as [Hc Hr].
  unfold not_comma in Hc. apply negb_true_iff in Hc. rewrite Hc. f_equal.
  destruct (negb (Nat.eqb (pred n) 0) && Nat.eqb (Nat.modulo (pred n) 3) 0);
    [cbn [replace_commas]; change (Ascii.eqb "," ",") with true; cbv iota|];
    now apply IH.
Qed.

Lemma string_of_uint_digits (d : Decimal.uint) :
  all_chars is_digit (NilEmpty.string_of_uint d) = true.
Proof. induction d; cbn; auto. Qed.

Lemma decimal_string_digits (n : N) : all_chars is_digit (decimal_string n) = true.
Proof. apply string_of_uint_digits. Qed.

Lemma decimal_string_not_empty (n : N) : falsy (decimal_string n) = false.
Proof.
  unfold decimal_string. destruct n as [|p]; [reflexivity|].
  cbn [N.to_uint].
  pose proof (DecimalPos.Unsigned.to_uint_nonnil p) as Hp.
  destruct (Pos.to_uint p); (reflexivity || contradiction).
Qed.

Lemma decimal_value_string (n : N) : decimal_value (decimal_string n) = n.
Proof.
  unfold decimal_value, decimal_string.
  now rewrite NilEmpty.usu, DecimalN.Unsigned.of_to.
Qed.

(** The display of a safe integer. *)
Lemma toLocaleString_safe (n : N) :
  (n < 2 ^ 53)%N ->
  toLocaleString_jaJP (number_of_Z (Z.of_N n)) = group_thousands (decimal_string n).
Proof.
  intros Hn. destruct n as [|p]; [reflexivity|].
  cbn [Z.of_N].
  destruct (number_of_Z_exact p) as (m & e & -> & Hv); [lia|].
  cbn [toLocaleString_jaJP integer_of cond_Zopp].
  rewrite Hv. reflexivity.
Qed.

Lemma formatNumber_digits (value : string) :
  falsy (replace_non_digits value) = false ->
  formatNumber value
  = toLocaleString_jaJP (Number_of_digits (replace_non_digits value)).
Proof.
  intros Hd. unfold formatNumber. rewrite Hd.
  destruct value; [discriminate|reflexivity].
Qed.

Lemma formatNumber_no_digits (value : string) :
  falsy (replace_non_digits value) = true -> formatNumber value = "".
Proof.
  intros Hd. unfold formatNumber. rewrite Hd. now destruct (falsy value).
Qed.

(** X6. Removing the separators from what [formatNumber] displays gives
    the canonical decimal numeral of the digits of the value (leading
    zeros and every non-digit dropped), and the empty string when the
    value has no digit; for digit values below [2^53]. *)
Theorem unformat_format (value : string) :
  let numericValue := replace_non_digits value in
  (decimal_value numericValue < 2 ^ 53)%N ->
  unformatNumber (formatNumber value)
  = if falsy numericValue then "" else decimal_string (decimal_value numericValue).
Proof.
  intros numericValue Hsafe. destruct (falsy numericValue) eqn:Hd.
  - now rewrite formatNumber_no_digits.
  - rewrite formatNumber_digits by exact Hd.
    unfold Number_of_digits. fold numericValue.
    rewrite toLocaleString_safe by exact Hsafe.
    apply replace_commas_group.
    apply (all_chars_impl is_digit); [exact is_digit_not_comma|].
    apply decimal_string_digits.
Qed.

Lemma unformat_format_witness :
  unformatNumber (formatNumber "0012x3,4")
  = (if falsy (replace_non_digits "0012x3,4") then ""
     else decimal_string (decimal_value (replace_non_digits "0012x3,4"))).
Proof. refine (unformat_format "0012x3,4" _). vm_compute. reflexivity. Defined.

(** X7. Feeding the displayed text back through [handleChange] and
    displaying it again shows the same text; for digit values below
    [2^53]. *)
Theorem displayed_text_is_stable (value : string) :
  (decimal_value (replace_non_digits value) < 2 ^ 53)%N ->
  formatNumber (handleChange (formatNumber value)) = formatNumber value.
Proof.
  intros Hsafe. unfold handleChange.
  destruct (falsy (replace_non_digits value)) eqn:Hd.
  - now rewrite (formatNumber_no_digits value Hd).
  - assert (E : unformatNumber (formatNumber value)
                = decimal_string (decimal_value (replace_non_digits value))).
    { rewrite (formatNumber_digits value Hd). unfold Number_of_digits.
      rewrite toLocaleString_safe by exact Hsafe.
      apply replace_commas_group.
      apply (all_chars_impl is_digit); [exact is_digit_not_comma|].
      apply decimal_string_digits. }
    rewrite E.
    rewrite formatNumber_digits;
      rewrite replace_non_digits_id by apply decimal_string_digits;
      [|apply decimal_string_not_empty].
    rewrite (formatNumber_digits value Hd).
    unfold Number_of_digits. now rewrite decimal_value_string.
Qed.

Lemma displayed_text_is_stable_witness :
  formatNumber (handleChange (formatNumber "1234567")) = formatNumber "1234567".
Proof.
  refine (displayed_text_is_stable "1234567" _). vm_compute. reflexivity.
Defined.

(** X8. [unformatNumber] leaves no comma, is idempotent, and never
    changes what [formatNumber] displays. *)
Theorem commas_never_matter (value : string) :
  all_chars not_comma (unformatNumber value) = true
  /\ unformatNumber (unformatNumber value) = unformatNumber value
  /\ formatNumber (unformatNumber value) = formatNumber value.
Proof.
  unfold unformatNumber. split; [apply replace_commas_no_comma|]. split.
  - apply replace_commas_id, replace_commas_no_comma.
  - destruct (falsy (replace_non_digits value)) eqn:Hd.
    + rewrite (formatNumber_no_digits value Hd).
      apply formatNumber_no_digits. now rewrite replace_non_digits_commas.
    + rewrite (formatNumber_digits value Hd).
      rewrite formatNumber_digits; now rewrite replace_non_digits_commas.
Qed.

(** ** CompanySearch: the securities code *)

Lemma slice_0_4_length (s : string) :
  String.length (slice_0_4 s) = Nat.min 4 (String.length s).
Proof.
  destruct s as [|a [|b [|c [|d [|e rest]]]]]; reflexivity.
Qed.

Lemma slice_0_4_digits (s : string) :
  all_chars is_digit s = true -> all_chars is_digit (slice_0_4 s) = true.
Proof.
  destruct s as [|a [|b [|c [|d [|e rest]]]]]; cbn; try (intros; assumption).
  intros H.
  repeat (apply andb_true_iff in H as [?Hc H]; rewrite Hc; clear Hc).
  reflexivity.
Qed.

Lemma slice_0_4_short (s : string) :
  (String.length s <= 4)%nat -> slice_0_4 s = s.
Proof.
  destruct s as [|a [|b [|c [|d [|e rest]]]]]; cbn; try reflexivity.
  intros H. exfalso. lia.
Qed.

(** X9. Whatever is typed, the securities code kept by the input handler
    consists of digits only, is at most 4 long and is a fixed point of the
    handler; for such a code the fetch button (when not loading) is
    disabled exactly when [handleFetchData] would reject the code, and the
    code is accepted exactly when the typed text has at least 4 digits. *)
Theorem securities_code_input (value : string) :
  let code := onCodeChange value in
  all_chars is_digit code = true
  /\ (String.length code <= 4)%nat
  /\ onCodeChange code = code
  /\ fetchDisabled false code = codeRejected code
  /\ (codeRejected code = false
      <-> (4 <= String.length (replace_non_digits value))%nat).
Proof.
  intros code. unfold code, onCodeChange.
  pose proof (replace_non_digits_digits value) as Hd.
  pose proof (slice_0_4_length (replace_non_digits value)) as Hl.
  set (digits := replace_non_digits value) in *.
  assert (Hc : all_chars is_digit (slice_0_4 digits) = true)
    by now apply slice_0_4_digits.
  split; [exact Hc|]. split; [lia|]. split; [|split].
  - rewrite (replace_non_digits_id _ Hc). apply slice_0_4_short. lia.
  - unfold fetchDisabled, codeRejected. cbn [orb].
    destruct (slice_0_4 digits); reflexivity.
  - unfold codeRejected.
    destruct (slice_0_4 digits) as [|c rest].
    + cbn [falsy orb]. change (String.length "") with 0%nat in Hl.
      split; [discriminate|lia].
    + cbn [falsy orb]. rewrite negb_false_iff, Nat.eqb_eq, Hl. lia.
Qed.

(** ** More on the engine *)

(** X10. For a numerator that is not NaN and a finite, strictly positive
    denominator, every compute function returns a number that is not NaN;
    for every metric except revenue growth a non-negative numerator gives
    a non-negative result. *)
Theorem calculate_finite_result (m : Metric) (a d : number) :
  isNaN a = false -> isFinite d = true -> (f64 0 <? d) = true ->
  exists r, calculate m a d = Returns r
            /\ isNaN r = false
            /\ (m <> RevenueGrowth -> (a <? f64 0) = false ->
                (r <? f64 0) = false).
Proof.
  intros Ha Hd Hp. exists (formula m a d). split; [|split].
  - rewrite calculate_unfold. now rewrite (num_ltb_not_leb _ _ Hp).
  - now apply formula_not_nan.
  - intros Hm Hn. now apply formula_not_negative.
Qed.

Lemma calculate_finite_result_witness :
  exists r, calculate ROE (f64 10000) (f64 200000) = Returns r
            /\ isNaN r = false
            /\ (ROE <> RevenueGrowth -> (f64 10000 <? f64 0) = false ->
                (r <? f64 0) = false).
Proof.
  refine (calculate_finite_result ROE (f64 10000) (f64 200000) _ _ _);
    vm_compute; reflexivity.
Defined.

Section Style.
Context {num : Type} `{Number num}.

(** X11. The three style classes of every judgment name one and the same
    colour, fixed by the position of the level: green for the first band
    and red for the last, blue and yellow in between (yellow and orange
    for PSR); the [color] field of a PSR judgment is that colour. *)
Theorem judgment_colours (m : Metric) (x : num) :
  judgmentStyle m x = tailwind (band_colour m (judgmentRank m x))
  /\ PSRJudgment.color (getPSRJudgment x) = band_colour PSR (judgmentRank PSR x).
Proof.
  split.
  - destruct m; cbn [judgmentStyle judgmentRank];
      unfold getPSRJudgment, getCurrentRatioJudgment, getEquityRatioJudgment,
        getCapExRatioJudgment, getRevenueGrowthJudgment, getROEJudgment,
        getROAJudgment, getOperatingMarginJudgment, getPERJudgment,
        getPBRJudgment, getDividendYieldJudgment;
      repeat match goal with
             | |- context [if ?c then _ else _] => destruct c
             end; reflexivity.
  - cbn [judgmentRank]. unfold getPSRJudgment.
    repeat match goal with
           | |- context [if ?c then _ else _] => destruct c
           end; reflexivity.
Qed.

End Style.

Lemma reaches_every_band (m : Metric) (k : nat) :
  (k < 4)%nat -> reaches m k = true.
Proof.
  intros Hk. destruct k as [|[|[|[|k]]]]; [| | | |lia];
    destruct m; vm_compute; reflexivity.
Qed.

(** X12. Every level of every classifier is reached from a pair of
    positive finite figures: no band is dead, also under the tests of the
    calculator effects. *)
Theorem every_level_is_reachable (m : Metric) (k : nat) :
  (k < 4)%nat ->
  let a := f64 (fst (sample_figures m k)) in
  let d := f64 (snd (sample_figures m k)) in
  (isFinite a = true /\ (f64 0 <? a) = true)
  /\ (isFinite d = true /\ (f64 0 <? d) = true)
  /\ exists r, calculate m a d = Returns r /\ judgmentRank m r = k.
Proof.
  intros Hk a d. pose proof (reaches_every_band m k Hk) as H.
  unfold reaches in H. fold a d in H.
  repeat (apply andb_true_iff in H as [H ?Hb]).
  repeat split; try assumption.
  destruct (calculate m a d) as [r|msg]; [|discriminate].
  exists r. split; [reflexivity|]. now apply Nat.eqb_eq.
Qed.

Lemma every_level_is_reachable_witness :
  exists r,
    calculate PSR (f64 (fst (sample_figures PSR 3)))
                  (f64 (snd (sample_figures PSR 3))) = Returns r
    /\ judgmentRank PSR r = 3%nat.
Proof.
  refine (proj2 (proj2 (every_level_is_reachable PSR 3 _))). lia.
Defined.

(** ** formatDate *)

Lemma substring_append_left (y s : string) (n : nat) :
  String.length y = n -> String.substring 0 n (y ++ s) = y.
Proof.
  intros <-. induction y as [|c y IH]; cbn; [now destruct s|]. now rewrite IH.
Qed.

Lemma substring_append_right (y s : string) (n i k : nat) :
  String.length y = n ->
  String.substring (n + i) k (y ++ s) = String.substring i k s.
Proof. intros <-. induction y as [|c y IH]; cbn; [reflexivity|exact IH]. Qed.

Lemma length_append (y s : string) :
  String.length (y ++ s) = (String.length y + String.length s)%nat.
Proof. induction y as [|c y IH]; cbn; [reflexivity|now rewrite IH]. Qed.

Lemma all_from_spec (P : N -> bool) (start count : N) :
  all_from P start count = true ->
  forall y, (start <= y < start + count)%N -> P y = true.
Proof.
  unfold all_from.
  set (step := fun st : N * bool => (N.succ (fst st), snd st && P (fst st))).
  induction count as [|n IH] using N.peano_ind; [intros _ y Hy; lia|].
  rewrite N.iter_succ.
  assert (Hfst : forall k, fst (N.iter k step (start, true)) = (start + k)%N).
  { induction k as [|k IHk] using N.peano_ind; [cbn; lia|].
    rewrite N.iter_succ. cbn [step fst]. rewrite IHk. lia. }
  cbn [step snd]. rewrite Hfst. intros H.
  apply andb_true_iff in H as [Hn Hlast]. intros y Hy.
  destruct (N.eq_dec y (start + n)) as [->|Hne]; [exact Hlast|].
  apply (IH Hn). lia.
Qed.

Lemma years_have_four_digits :
  all_from year_has_four_digits 1000 9000 = true.
Proof. vm_compute. reflexivity. Qed.

Lemma suffixes_are_well_formed :
  forallb (fun month => forallb (suffix_is_well_formed month) (seq 1 31))
          (seq 0 12) = true.
Proof. vm_compute. reflexivity. Qed.

(** X13. For a four-digit year, a month index 0..11 and a day 1..31,
    [formatDate] yields ten characters with '-' at positions 4 and 7, from
    which the three fields are read back. *)
Theorem formatDate_round_trip (date : DateFields) :
  (1000 <= getFullYear date <= 9999)%N ->
  (getMonth date <= 11)%N ->
  (1 <= getDate date <= 31)%N ->
  String.length (formatDate date) = 10%nat
  /\ String.substring 4 1 (formatDate date) = "-"
  /\ String.substring 7 1 (formatDate date) = "-"
  /\ parseDate (formatDate date) = date.
Proof.
  destruct date as [year month day]. cbn [getFullYear getMonth getDate].
  intros Hy Hm Hd.
  assert (Hlen : String.length (decimal_string year) = 4%nat).
  { apply Nat.eqb_eq.
    apply (all_from_spec year_has_four_digits 1000 9000 years_have_four_digits).
    lia. }
  assert (Hsuf : suffix_is_well_formed (N.to_nat month) (N.to_nat day) = true).
  { pose proof suffixes_are_well_formed as H.
    rewrite forallb_forall in H.
    assert (Hin : In (N.to_nat month) (seq 0 12)) by (apply in_seq; lia).
    specialize (H _ Hin). rewrite forallb_forall in H.
    apply H. apply in_seq. lia. }
  unfold suffix_is_well_formed in Hsuf. rewrite !N2Nat.id in Hsuf.
  repeat (apply andb_true_iff in Hsuf as [Hsuf ?Hs]).
  apply Nat.eqb_eq in Hsuf. apply String.eqb_eq in Hs2, Hs0.
  apply N.eqb_eq in Hs1, Hs.
  change (formatDate {| getFullYear := year; getMonth := month; getDate := day |})
    with (decimal_string year ++ month_day_suffix month day).
  set (suffix := month_day_suffix month day) in *.
  split; [|split; [|split]].
  - rewrite length_append, Hlen, Hsuf. reflexivity.
  - etransitivity; [|exact Hs2].
    exact (substring_append_right (decimal_string year) suffix 4 0 1 Hlen).
  - etransitivity; [|exact Hs0].
    exact (substring_append_right (decimal_string year) suffix 4 3 1 Hlen).
  - unfold parseDate. f_equal.
    + rewrite (substring_append_left _ _ 4 Hlen). apply decimal_value_string.
    + change 5%nat with (4 + 1)%nat.
      rewrite (substring_append_right (decimal_string year) suffix 4 1 2 Hlen).
      rewrite Hs1. lia.
    + change 8%nat with (4 + 4)%nat.
      rewrite (substring_append_right (decimal_string year) suffix 4 4 2 Hlen).
      exact Hs.
Qed.

Lemma formatDate_round_trip_witness :
  String.length (formatDate {| getFullYear := 2025; getMonth := 0; getDate := 9 |})
  = 10%nat
  /\ formatDate {| getFullYear := 2025; getMonth := 0; getDate := 9 |}
     = "2025-01-09".
Proof.
  split.
  - refine (proj1 (formatDate_round_trip
                      {| getFullYear := 2025; getMonth := 0; getDate := 9 |}
                      _ _ _)); cbn; lia.
  - vm_compute. reflexivity.
Defined.

(** ** C8: the numerator is never checked, and the sign of a loss *)




